(** * epub-sorter: a shallow embedding of [e_pub_sorter.py]

    The program walks a directory tree, reads the metadata of every
    [*.epub] file, moves the files into three managed folders, marks
    identifier collisions, optionally edits metadata, groups files by
    author, writes a CSV report and removes empty folders.

    The embedding keeps the shape of the Python source: one definition per
    method of the [Epub] dataclass, with the same names.  The file system,
    the operator's keyboard input and the fields of [self] form one state
    record threaded through a state-and-exception monad; an uncaught Python
    exception is the [Raise] outcome and carries the state reached when it
    was raised, because renames already performed are not undone. *)

From Stdlib Require Import Ascii String.
From stdpp Require Import gmap strings list fin_maps.

Open Scope string_scope.
Open Scope list_scope.

(** ** Python strings *)

Module PyStr.

(** [s.replace(a, b)] for one-character [a] and [b]. *)
Fixpoint replace (a b : ascii) (s : string) : string :=
  match s with
  | EmptyString => EmptyString
  | String c s' => String (if Ascii.eqb c a then b else c) (replace a b s')
  end.

(** [sep.join(l)]. *)
Definition join (sep : string) (l : list string) : string :=
  String.concat sep l.

(** [s.endswith(t)]. *)
Definition endswith (s t : string) : bool :=
  let n := String.length s in
  let k := String.length t in
  (k <=? n)%nat && String.eqb (String.substring (n - k) k s) t.

(** [s.rfind(c)] for a one-character [c]: the last index of [c] in [s]. *)
Fixpoint rfind_from (c : ascii) (s : string) (i : nat) (acc : option nat)
  : option nat :=
  match s with
  | EmptyString => acc
  | String d s' =>
      rfind_from c s' (S i) (if Ascii.eqb d c then Some i else acc)
  end.

Definition rfind (c : ascii) (s : string) : option nat :=
  rfind_from c s 0 None.

(** [s.split(c)] for a one-character separator. *)
Fixpoint split_go (c : ascii) (s : string) (cur : string) : list string :=
  match s with
  | EmptyString => [cur]
  | String d s' =>
      if Ascii.eqb d c then cur :: split_go c s' EmptyString
      else split_go c s' (cur +:+ String d EmptyString)
  end.

Definition split (c : ascii) (s : string) : list string :=
  split_go c s EmptyString.

(** [str(b)] for a [bool]. *)
Definition of_bool (b : bool) : string := if b then "True" else "False".

(** Stable insertion sort, the result of [sorted(l)] for the order [leb]. *)
Fixpoint insert_sorted {A} (leb : A -> A -> bool) (x : A) (l : list A)
  : list A :=
  match l with
  | [] => [x]
  | y :: l' => if leb x y then x :: l else y :: insert_sorted leb x l'
  end.

Definition sorted {A} (leb : A -> A -> bool) (l : list A) : list A :=
  foldr (insert_sorted leb) [] l.

(** [l.count(x)]. *)
Definition count (x : string) (l : list string) : nat :=
  length (filter (fun y => y = x) l).

End PyStr.

(** ** pathlib

    A path is the list of its parts, as [PurePosixPath.parts] gives them:
    [Path()] is the empty list and an absolute path starts with the part
    ["/"]. *)

Abbreviation Path := (list string).

Module Pathlib.

Definition slash : ascii := "/"%char.
Definition dot : ascii := "."%char.

Definition is_absolute (p : Path) : bool :=
  match p with
  | r :: _ => String.eqb r "/"
  | [] => false
  end.

(** The parts of a path written as a string: empty parts and ["."] parts
    are dropped. *)
Definition parse (s : string) : Path :=
  let parts :=
    filter (fun c => c <> "" /\ c <> ".") (PyStr.split slash s) in
  if String.prefix "/" s then "/" :: parts else parts.

(** [p / s]. *)
Definition div (p : Path) (s : string) : Path :=
  let q := parse s in
  if is_absolute q then q else p ++ q.

(** [p.name]. *)
Definition name (p : Path) : string :=
  if is_absolute p && (length p =? 1)%nat then "" else List.last p "".

(** [p.parent]. *)
Definition parent (p : Path) : Path :=
  if is_absolute p && (length p =? 1)%nat then p else removelast p.

(** [p.suffix]. *)
Definition suffix (p : Path) : string :=
  let n := name p in
  match PyStr.rfind dot n with
  | Some i =>
      if ((0 <? i) && (i <? String.length n - 1))%nat
      then String.substring i (String.length n - i) n
      else ""
  | None => ""
  end.

(** [p.as_posix()], which is [str(p)] on a POSIX system. *)
Definition as_posix (p : Path) : string :=
  match p with
  | [] => "."
  | r :: q =>
      if String.eqb r "/" then "/" +:+ PyStr.join "/" q
      else PyStr.join "/" p
  end.

(** [p < q] or [p == q]: paths compare by their parts. *)
Fixpoint leb (p q : Path) : bool :=
  match p, q with
  | [], _ => true
  | _ :: _, [] => false
  | a :: p', b :: q' =>
      match String.compare a b with
      | Lt => true
      | Gt => false
      | Eq => leb p' q'
      end
  end.

(** [fnmatch(name, "*.epub")]. *)
Definition matches_epub (n : string) : bool := PyStr.endswith n ".epub".

(** [q] lies strictly below [p]. *)
Definition below (p q : Path) : bool :=
  (length p <? length q)%nat && bool_decide (take (length p) q = p).

End Pathlib.

Infix "//" := Pathlib.div (at level 40, left associativity).

(** ** The metadata library (ebookmeta) and the file system

    [ebookmeta] is an external library.  Of a metadata object the program
    uses the attributes [identifier], [title], [author_list] and [file],
    and the method [author_list_to_string]. *)

Record Metadata := mkMetadata {
  identifier : string;
  title : string;
  author_list : list string;
  file : string
}.

Definition author_list_to_string (m : Metadata) : string :=
  PyStr.join ", " (author_list m).

Definition set_title (t : string) (m : Metadata) : Metadata :=
  {| identifier := identifier m; title := t;
     author_list := author_list m; file := file m |}.

(** [set_author_list_from_string]: the names are separated by commas. *)
Definition set_author_list_from_string (s : string) (m : Metadata) : Metadata :=
  {| identifier := identifier m; title := title m;
     author_list := PyStr.split ","%char s; file := file m |}.

(** A regular file is either an e-book whose metadata decodes, or anything
    else: a report (its rows of cells) or bytes that do not decode.  An
    e-book can be write-protected: it is read and moved like any other, but
    its metadata cannot be rewritten. *)
Inductive content :=
  | EpubDoc (m : Metadata) (read_only : bool)
  | Blob (rows : list (list string)).

Inductive node :=
  | Dir
  | File (c : content).

(** Python exceptions the program can meet. *)
Inductive exn :=
  | UnboundLocalError
  | FileNotFoundError
  | FileExistsError
  | NotADirectoryError
  | IsADirectoryError
  | OSError
  | DecodeError
  | EncodeError
  | EOFError
  | ValueError.

Module FS.

(** The tree below the working directory; the working directory itself
    is the path [[]] and always a directory. *)
Abbreviation t := (gmap Path node).

Definition is_dir (fs : t) (p : Path) : bool :=
  match p with
  | [] => true
  | _ => match fs !! p with Some Dir => true | _ => false end
  end.

Definition is_file (fs : t) (p : Path) : bool :=
  match fs !! p with Some (File _) => true | _ => false end.

Definition exists_ (fs : t) (p : Path) : bool :=
  is_dir fs p || is_file fs p.

(** [p.iterdir()] as a list. *)
Definition iterdir (fs : t) (p : Path) : list Path :=
  filter (fun q => q <> p /\ Pathlib.parent q = p) (map fst (map_to_list fs)).

(** [list(p.rglob(pattern))]: every path strictly below [p] whose name
    matches.  The order in which the operating system lists a directory
    is not specified; the model lists in the order of the map. *)
Definition rglob (fs : t) (p : Path) (pattern : string -> bool) : list Path :=
  filter (fun q => Pathlib.below p q = true /\ pattern (Pathlib.name q) = true)
         (map fst (map_to_list fs)).

(** [p.mkdir(parents=True, exist_ok=True)]. *)
Fixpoint mkdir_prefixes (fs : t) (p : Path) (n : nat) : exn + t :=
  match n with
  | 0 => inr fs
  | S n' =>
      match mkdir_prefixes fs p n' with
      | inl e => inl e
      | inr fs' =>
          let q := take n p in
          match fs' !! q with
          | Some Dir => inr fs'
          | Some (File _) =>
              inl (if (n =? length p)%nat then FileExistsError
                   else NotADirectoryError)
          | None => inr (<[q := Dir]> fs')
          end
      end
  end.

Definition mkdir (fs : t) (p : Path) : exn + t :=
  mkdir_prefixes fs p (length p).

(** [src.rename(dst)] for a regular file [src]: the rename(2) system
    call.  An existing regular file at [dst] is replaced.  Every rename of
    the program has a regular file as its source when it succeeds; moving
    a directory is not modelled and is reported as [IsADirectoryError]. *)
Definition rename (fs : t) (src dst : Path) : exn + t :=
  match fs !! src with
  | None => inl FileNotFoundError
  | Some Dir => inl IsADirectoryError
  | Some (File c) =>
      if negb (exists_ fs (Pathlib.parent dst)) then inl FileNotFoundError
      else if negb (is_dir fs (Pathlib.parent dst)) then inl NotADirectoryError
      else if is_dir fs dst then inl IsADirectoryError
      else inr (<[dst := File c]> (delete src fs))
  end.

(** [p.rmdir()]. *)
Definition rmdir (fs : t) (p : Path) : exn + t :=
  match fs !! p with
  | None => inl FileNotFoundError
  | Some (File _) => inl NotADirectoryError
  | Some Dir =>
      match iterdir fs p with
      | [] => inr (delete p fs)
      | _ :: _ => inl OSError
      end
  end.

(** [ebookmeta.get_metadata(p.as_posix())]: the metadata stored in the
    file, with [file] set to the name it was read from. *)
Definition get_metadata (fs : t) (p : Path) : exn + Metadata :=
  match fs !! p with
  | Some (File (EpubDoc m _)) =>
      inr {| identifier := identifier m; title := title m;
             author_list := author_list m; file := Pathlib.as_posix p |}
  | _ => inl DecodeError
  end.

(** [ebookmeta.set_metadata(p.as_posix(), m)]: rewrites the metadata of an
    existing e-book; fails on a missing file, on one that does not decode
    and on one that is write-protected. *)
Definition set_metadata (fs : t) (p : Path) (m : Metadata) : exn + t :=
  match fs !! p with
  | Some (File (EpubDoc _ false)) => inr (<[p := File (EpubDoc m false)]> fs)
  | _ => inl EncodeError
  end.

(** Whether [set_metadata] succeeds on [p]. *)
Definition rewritable (fs : t) (p : Path) : bool :=
  match fs !! p with
  | Some (File (EpubDoc _ false)) => true
  | _ => false
  end.

(** [open(p, "w")] followed by writing [rows]. *)
Definition write_rows (fs : t) (p : Path) (rows : list (list string)) : exn + t :=
  if is_dir fs p then inl IsADirectoryError
  else if negb (is_dir fs (Pathlib.parent p)) then inl FileNotFoundError
  else inr (<[p := File (Blob rows)]> fs).

End FS.

(** ** The [Epub] dataclass and the world it runs in *)

Definition CSV_HEADER : list string :=
  ["is_duplicate"; "is_failed"; "path"; "identifier"; "title"; "file"; "author"].

(** One element of [self.data]: the dict with the keys ["is_duplicate"],
    ["is_failed"], ["metadata"] and ["path"]. *)
Record entry := mkEntry {
  is_duplicate : bool;
  is_failed : bool;
  metadata : Metadata;
  path : Path
}.

(** The fields of [self] that the methods read or write, together with the
    file system and the lines the operator will type. *)
Record State := mkState {
  fs : gmap Path node;
  stdin : list string;
  csv_header : list string;
  csv_output : Path;
  data : list entry;
  duplicate_folder : Path;
  epub_list : list Path;
  epub_path : Path;
  failed_folder : Path;
  processed_folder : Path;
  identifier_list : list string
}.

Definition with_fs (f : gmap Path node) (s : State) : State :=
  mkState f (stdin s) (csv_header s) (csv_output s) (data s)
          (duplicate_folder s) (epub_list s) (epub_path s) (failed_folder s)
          (processed_folder s) (identifier_list s).

Definition with_stdin (i : list string) (s : State) : State :=
  mkState (fs s) i (csv_header s) (csv_output s) (data s)
          (duplicate_folder s) (epub_list s) (epub_path s) (failed_folder s)
          (processed_folder s) (identifier_list s).

Definition with_data (d : list entry) (s : State) : State :=
  mkState (fs s) (stdin s) (csv_header s) (csv_output s) d
          (duplicate_folder s) (epub_list s) (epub_path s) (failed_folder s)
          (processed_folder s) (identifier_list s).

Definition with_epub_list (l : list Path) (s : State) : State :=
  mkState (fs s) (stdin s) (csv_header s) (csv_output s) (data s)
          (duplicate_folder s) l (epub_path s) (failed_folder s)
          (processed_folder s) (identifier_list s).

Definition with_identifier_list (l : list string) (s : State) : State :=
  mkState (fs s) (stdin s) (csv_header s) (csv_output s) (data s)
          (duplicate_folder s) (epub_list s) (epub_path s) (failed_folder s)
          (processed_folder s) l.

(** The three managed folders, as the membership test of
    [extract_metadata] lists them. *)
Definition managed_folders (s : State) : list Path :=
  [duplicate_folder s; failed_folder s; processed_folder s].

(** *** The monad *)

Inductive outcome (A : Type) :=
  | Return (a : A) (s : State)
  | Raise (e : exn) (s : State).
Arguments Return {A} a s.
Arguments Raise {A} e s.

Definition M (A : Type) : Type := State -> outcome A.

Definition ret {A} (a : A) : M A := fun s => Return a s.

Definition bind {A B} (m : M A) (k : A -> M B) : M B :=
  fun s =>
    match m s with
    | Return a s' => k a s'
    | Raise e s' => Raise e s'
    end.

Definition raise {A} (e : exn) : M A := fun s => Raise e s.

Definition get : M State := fun s => Return s s.

Definition modify (f : State -> State) : M unit := fun s => Return tt (f s).

Declare Scope py_scope.
Delimit Scope py_scope with py.
Notation "x <- m ;; k" := (bind m (fun x => k))
  (at level 100, m at next level, right associativity) : py_scope.
Notation "m ;; k" := (bind m (fun _ => k))
  (at level 100, right associativity) : py_scope.
Open Scope py_scope.

(** An operation of the file system that either raises or replaces it. *)
Definition lift_fs (op : gmap Path node -> exn + gmap Path node) : M unit :=
  fun s =>
    match op (fs s) with
    | inl e => Raise e s
    | inr f => Return tt (with_fs f s)
    end.

(** [for x in l: body(x)]. *)
Fixpoint for_each {A} (l : list A) (body : A -> M unit) : M unit :=
  match l with
  | [] => ret tt
  | x :: l' => body x ;; for_each l' body
  end.

(** A loop whose body reads and assigns a local variable of the enclosing
    function: the variable is passed from one round to the next. *)
Fixpoint for_each_with {A V} (l : list A) (v : V) (body : V -> A -> M V) : M V :=
  match l with
  | [] => ret v
  | x :: l' => v' <- body v x ;; for_each_with l' v' body
  end.

Definition mkdir (p : Path) : M unit := lift_fs (fun f => FS.mkdir f p).
Definition rename (src dst : Path) : M unit := lift_fs (fun f => FS.rename f src dst).
Definition rmdir (p : Path) : M unit := lift_fs (fun f => FS.rmdir f p).

Definition get_metadata (p : Path) : M Metadata :=
  fun s =>
    match FS.get_metadata (fs s) p with
    | inl e => Raise e s
    | inr m => Return m s
    end.

Definition set_metadata (p : Path) (m : Metadata) : M unit :=
  lift_fs (fun f => FS.set_metadata f p m).

(** [input(prompt)]: the next line the operator types. *)
Definition input : M string :=
  fun s =>
    match stdin s with
    | [] => Raise EOFError s
    | l :: rest => Return l (with_stdin rest s)
    end.

(** [self.data[i]], where [i] stands for a reference to one of the dicts
    held by [self.data]: the same dict can be reached through several
    references and is mutated in place. *)
Definition deref (i : nat) : M entry :=
  fun s =>
    match data s !! i with
    | Some d => Return d s
    | None => Raise ValueError s
    end.

Definition assign (i : nat) (f : entry -> entry) : M unit :=
  modify (fun s => with_data (alter f i (data s)) s).

Definition set_is_duplicate (b : bool) (d : entry) : entry :=
  mkEntry b (is_failed d) (metadata d) (path d).
Definition set_entry_metadata (m : Metadata) (d : entry) : entry :=
  mkEntry (is_duplicate d) (is_failed d) m (path d).
Definition set_path (p : Path) (d : entry) : entry :=
  mkEntry (is_duplicate d) (is_failed d) (metadata d) p.

(** ** The methods of [Epub] *)

(** [Epub()]: the default field values of the dataclass, in the world given
    by a file system and the operator's input. *)
Definition Epub (f : gmap Path node) (keyboard : list string) : State :=
  {| fs := f;
     stdin := keyboard;
     csv_header := [];
     csv_output := [] // "epub_metadata.csv";
     data := [];
     duplicate_folder := [] // "[duplicates]";
     epub_list := [];
     epub_path := [];
     failed_folder := [] // "[failed]";
     processed_folder := [] // "[processed]";
     identifier_list := [] |}.

Definition post_init : M unit :=
  modify (fun s =>
    mkState (fs s) (stdin s) CSV_HEADER (csv_output s) []
            (duplicate_folder s) [] (epub_path s) (failed_folder s)
            (processed_folder s) []) ;;
  s <- get ;;
  mkdir (duplicate_folder s) ;;
  mkdir (failed_folder s) ;;
  mkdir (processed_folder s).

Definition find_empty_folders : M (list Path) :=
  s <- get ;;
  ret (filter (fun folder => FS.is_dir (fs s) folder = true
                             /\ FS.iterdir (fs s) folder = [])
              (FS.rglob (fs s) [] (fun _ => true))).

Definition get_processed_epub : M (list Path) :=
  s <- get ;;
  ret (FS.rglob (fs s) (processed_folder s) Pathlib.matches_epub).

(** [for data in self.data]: the loop visits the dicts of the list one
    after the other; the list itself is not changed meanwhile. *)
Definition update_one (ident : string) (md : option Metadata)
    (new_path : option Path) (i : nat) : M unit :=
  d <- deref i ;;
  if String.eqb ident (identifier (metadata d)) then
    match md with
    | Some m =>
        set_metadata (path d) m ;;
        assign i (set_entry_metadata m)
    | None => ret tt
    end ;;
    match new_path with
    | Some p => assign i (set_path p)
    | None => ret tt
    end
  else ret tt.

Definition update_data (ident : string) (md : option Metadata)
    (new_path : option Path) : M unit :=
  s <- get ;;
  for_each (seq 0 (length (data s))) (update_one ident md new_path).

(** [x.replace(",", "_").replace(" ", "_")], written out twice in the
    source: for the author folder and for the new file name. *)
Definition sanitized (x : string) : string :=
  PyStr.replace " " "_" (PyStr.replace "," "_" x).

(** The folder name built from the author list. *)
Definition author_name (m : Metadata) : string :=
  sanitized (PyStr.join "-" (author_list m)).

Definition author_group : M unit :=
  file_list <- get_processed_epub ;;
  for_each file_list (fun epub =>
    md <- get_metadata epub ;;
    s <- get ;;
    let author_folder := processed_folder s // author_name md in
    (if negb (FS.exists_ (fs s) author_folder) then mkdir author_folder
     else ret tt) ;;
    rename epub (author_folder // Pathlib.name epub) ;;
    update_data (identifier md) None
                (Some (author_folder // Pathlib.name epub))).

Definition detect_epubs : M unit :=
  modify (fun s =>
    with_epub_list (FS.rglob (fs s) (epub_path s) Pathlib.matches_epub) s).

(** One round of the loop of [extract_metadata].  The local variable
    [metadata] is assigned only when decoding succeeds, so [local] is
    [None] until the first success and afterwards holds the metadata of the
    last file that decoded.  Reading it while it is unbound raises
    [UnboundLocalError]. *)
Definition extract_one (local : option Metadata) (epub : Path)
    : M (option Metadata) :=
  s <- get ;;
  if FS.is_file (fs s) epub
     && negb (bool_decide (Pathlib.parent epub ∈ managed_folders s))
  then
    let is_duplicate := false in
    match FS.get_metadata (fs s) epub with
    | inl _ =>
        (* except: *)
        let path := failed_folder s // Pathlib.name epub in
        rename epub path ;;
        let is_failed := true in
        match local with
        | None => raise UnboundLocalError
        | Some md =>
            modify (fun s' =>
              with_data (data s' ++ [mkEntry is_duplicate is_failed md path]) s') ;;
            ret local
        end
    | inr md =>
        (* else: *)
        modify (fun s' =>
          with_identifier_list (identifier_list s' ++ [identifier md]) s') ;;
        let is_failed := false in
        let path := processed_folder s // Pathlib.name epub in
        rename epub path ;;
        modify (fun s' =>
          with_data (data s' ++ [mkEntry is_duplicate is_failed md path]) s') ;;
        ret (Some md)
    end
  else ret local.

Definition extract_metadata : M unit :=
  s <- get ;;
  for_each_with (epub_list s) None extract_one ;;
  ret tt.

(** The references to the dicts of [self.data] whose metadata carries
    [ident], in list order. *)
Definition refs_with_identifier (l : list entry) (ident : string) : list nat :=
  List.filter (fun i => match l !! i with
                        | Some d => String.eqb (identifier (metadata d)) ident
                        | None => false
                        end)
              (seq 0 (length l)).

(** [duplicate_list] holds references to dicts of [self.data]; a dict is
    listed once for every occurrence of its identifier in
    [identifier_list]. *)
Definition duplicate_list (s : State) : list nat :=
  flat_map (fun ident =>
              if (1 <? PyStr.count ident (identifier_list s))%nat
              then refs_with_identifier (data s) ident
              else [])
           (identifier_list s).

Definition move_duplicate (i : nat) : M unit :=
  assign i (set_is_duplicate true) ;;
  d <- deref i ;;
  s <- get ;;
  let path' := duplicate_folder s // Pathlib.name (path d) in
  rename (path d) path' ;;
  assign i (set_path path').

Definition find_duplicate_by_identifier : M unit :=
  s <- get ;;
  let dl := duplicate_list s in
  match dl with
  | [] => ret tt
  | _ :: _ => for_each dl move_duplicate
  end.

(** *** The report *)

(** The values stored in a row dict, and the text [csv] writes for each:
    a string as it is, anything else through [str]. *)
Inductive pyval :=
  | PyBool (b : bool)
  | PyString (s : string)
  | PyPath (p : Path).

Definition cell (v : pyval) : string :=
  match v with
  | PyBool b => PyStr.of_bool b
  | PyString s => s
  | PyPath p => Pathlib.as_posix p
  end.

(** A row dict, in the order its keys are written in the source. *)
Definition row_of (d : entry) : list (string * pyval) :=
  [("author", PyString (author_list_to_string (metadata d)));
   ("file", PyString (file (metadata d)));
   ("identifier", PyString (identifier (metadata d)));
   ("is_duplicate", PyBool (is_duplicate d));
   ("is_failed", PyBool (is_failed d));
   ("path", PyPath (path d));
   ("title", PyString (title (metadata d)))].

Fixpoint dict_get (k : string) (row : list (string * pyval)) : option pyval :=
  match row with
  | [] => None
  | (k', v) :: row' => if String.eqb k' k then Some v else dict_get k row'
  end.

(** [csv.DictWriter._dict_to_list]: a key outside [fieldnames] raises
    [ValueError]; a missing key is written as the empty string. *)
Definition dict_to_list (fieldnames : list string) (row : list (string * pyval))
    : exn + list string :=
  if forallb (fun kv => bool_decide (kv.1 ∈ fieldnames)) row
  then inr (map (fun k => match dict_get k row with
                          | Some v => cell v
                          | None => ""
                          end) fieldnames)
  else inl ValueError.

(** Appends one record to the file being written. *)
Definition writerow (out : Path) (r : list string) : M unit :=
  lift_fs (fun f =>
    match f !! out with
    | Some (File (Blob rows)) => inr (<[out := File (Blob (rows ++ [r]))]> f)
    | _ => inl OSError
    end).

Definition generate_csv : M unit :=
  s <- get ;;
  let content := map row_of (data s) in
  lift_fs (fun f => FS.write_rows f (csv_output s) []) ;;
  let fieldnames := PyStr.sorted String.leb (csv_header s) in
  writerow (csv_output s) fieldnames ;;
  for_each content (fun row =>
    match dict_to_list fieldnames row with
    | inl e => raise e
    | inr r => writerow (csv_output s) r
    end).

(** The four numbers [get_summary] prints. *)
Definition get_summary : M (nat * nat * nat * nat) :=
  s <- get ;;
  let count_in folder := length (FS.rglob (fs s) folder Pathlib.matches_epub) in
  if FS.is_dir (fs s) (processed_folder s) then
    ret (count_in (duplicate_folder s), count_in (failed_folder s),
         count_in (processed_folder s),
         length (FS.iterdir (fs s) (processed_folder s)))
  else raise FileNotFoundError.

(** The new file name built by [rename_file]: the f-string
    [{title.replace(',','_').replace(' ','_')}.{epub.suffix}]. *)
Definition renamed_name (title suffix : string) : string :=
  sanitized title +:+ "." +:+ suffix.

Definition rename_one (epub : Path) : M unit :=
  md <- get_metadata epub ;;
  s <- get ;;
  rename epub
    (processed_folder s // renamed_name (title md) (Pathlib.suffix epub)).

(** The directory listing is taken when the loop starts: the files are
    moved to the top of the processed folder, which is listed first. *)
Definition rename_file : M unit :=
  s <- get ;;
  for_each (FS.rglob (fs s) (processed_folder s) Pathlib.matches_epub)
           rename_one.

Definition remove_empty_folder : M unit :=
  empty_folders <- find_empty_folders ;;
  for_each (PyStr.sorted (fun a b => Pathlib.leb b a) empty_folders) rmdir.

Definition says_yes (answer : string) : bool :=
  bool_decide (answer ∈ ["y"; "Y"]).

Definition update_authors : M unit :=
  file_list <- get_processed_epub ;;
  for_each file_list (fun epub =>
    md <- get_metadata epub ;;
    change_author <- input ;;
    if says_yes change_author then
      name <- input ;;
      let md' := set_author_list_from_string name md in
      update_data (identifier md') (Some md') None
    else ret tt).

Definition update_title : M unit :=
  file_list <- get_processed_epub ;;
  for_each file_list (fun epub =>
    md <- get_metadata epub ;;
    change_title <- input ;;
    if says_yes change_title then
      new_title <- input ;;
      let md' := set_title new_title md in
      update_data (identifier md') (Some md') None
    else ret tt).

(** The command line flags. *)
Record Args := mkArgs {
  update : bool;
  update_author : bool;
  rename_file_flag : bool;
  update_title_flag : bool
}.

Definition no_flags : Args := mkArgs false false false false.

(** The body of [if instance.epub_list:] in [main]. *)
Definition stages (args : Args) : M unit :=
  extract_metadata ;;
  find_duplicate_by_identifier ;;
  (if update args || update_author args then update_authors else ret tt) ;;
  (if update args || update_title_flag args then update_title else ret tt) ;;
  (if update args || rename_file_flag args then rename_file else ret tt) ;;
  author_group ;;
  generate_csv ;;
  remove_empty_folder ;;
  get_summary ;;
  ret tt.

(** [main], after [Epub()] has produced the initial state. *)
Definition main (args : Args) : M unit :=
  post_init ;;
  detect_epubs ;;
  s <- get ;;
  match epub_list s with
  | [] => ret tt
  | _ :: _ => stages args
  end.

(** [Epub()] followed by [detect_epubs] when the directory listing comes in
    the order [listing]: the order of [rglob] is the operating system's. *)
Definition discovered (listing : list Path) : M unit :=
  post_init ;;
  modify (with_epub_list listing).

(** [main] for a given order of the directory listing. *)
Definition main_listing (listing : list Path) (args : Args) : M unit :=
  discovered listing ;;
  match listing with
  | [] => ret tt
  | _ :: _ => stages args
  end.

(** The Classifier of the specification: discovery and
    [extract_metadata]. *)
Definition classifier (listing : list Path) : M unit :=
  discovered listing ;;
  extract_metadata.


(** ** Vocabulary of the properties *)

Definition final {A} (o : outcome A) : State :=
  match o with
  | Return _ s => s
  | Raise _ s => s
  end.

Definition raised {A} (o : outcome A) : option exn :=
  match o with
  | Return _ _ => None
  | Raise e _ => Some e
  end.

(** The entry's metadata carries the identifier: the test of
    [update_data] and of [find_duplicate_by_identifier]. *)
Definition carries (ident : string) (d : entry) : bool :=
  String.eqb ident (identifier (metadata d)).

(** What [update_data] makes of one dict. *)
Definition updated (ident : string) (md : option Metadata)
    (new_path : option Path) (d : entry) : entry :=
  if carries ident d then
    let d1 := match md with Some m => set_entry_metadata m d | None => d end in
    match new_path with Some p => set_path p d1 | None => d1 end
  else d.

(** The file system after the metadata has been written to the file of
    every dict of [l] that carries the identifier. *)
Definition written (ident : string) (md : option Metadata) (l : list entry)
    (f : gmap Path node) : gmap Path node :=
  match md with
  | None => f
  | Some m =>
      foldl (fun f d => if carries ident d
                        then <[path d := File (EpubDoc m false)]> f else f) f l
  end.

Definition rewritable (f : gmap Path node) (p : Path) : Prop :=
  exists m0, f !! p = Some (File (EpubDoc m0 false)).

(** Every write [update_data] is going to attempt succeeds. *)
Definition writes_succeed (ident : string) (md : option Metadata) (s : State)
    : bool :=
  match md with
  | None => true
  | Some _ =>
      forallb (fun d => implb (carries ident d)
                              (FS.rewritable (fs s) (path d))) (data s)
  end.

(** Some dict carrying the identifier has a file that cannot be rewritten. *)
Definition some_write_fails (ident : string) (s : State) : bool :=
  existsb (fun d => carries ident d && negb (FS.rewritable (fs s) (path d)))
          (data s).

(** The fields of [self] other than [data] agree. *)
Definition same_self (s s' : State) : Prop :=
  stdin s' = stdin s /\ csv_header s' = csv_header s /\
  csv_output s' = csv_output s /\ duplicate_folder s' = duplicate_folder s /\
  epub_list s' = epub_list s /\ epub_path s' = epub_path s /\
  failed_folder s' = failed_folder s /\
  processed_folder s' = processed_folder s /\
  identifier_list s' = identifier_list s.

(** The folder that the flags of an entry stand for. *)
Definition state_folder (s : State) (d : entry) : Path :=
  if is_failed d then failed_folder s
  else if is_duplicate d then duplicate_folder s
  else processed_folder s.

(** The recorded location lies below the folder of the entry's state and a
    file is there. *)
Definition location_consistent (s : State) (d : entry) : bool :=
  Pathlib.below (state_folder s d) (path d) && FS.is_file (fs s) (path d).

(** The entries marked duplicate that carry [ident] and are recorded
    directly in the duplicate folder. *)
Definition duplicates_of (ident : string) (s : State) : list entry :=
  List.filter (fun d => carries ident d && is_duplicate d
                        && bool_decide (Pathlib.parent (path d) = duplicate_folder s))
              (data s).

(** The entries that decoded and carry [ident]. *)
Definition processed_of (ident : string) (s : State) : list entry :=
  List.filter (fun d => carries ident d && negb (is_failed d)) (data s).

(** The report, as the specification describes it. *)
Definition report_header : list string :=
  ["author"; "file"; "identifier"; "is_duplicate"; "is_failed"; "path"; "title"].

Definition report_row (d : entry) : list string :=
  [author_list_to_string (metadata d);
   file (metadata d);
   identifier (metadata d);
   if is_duplicate d then "True" else "False";
   if is_failed d then "True" else "False";
   Pathlib.as_posix (path d);
   title (metadata d)].

(** What the sanitizing does to one character. *)
Definition underscore (c : ascii) : ascii :=
  if Ascii.eqb c ","%char || Ascii.eqb c " "%char then "_"%char else c.

(** ** Small worlds to run the program on *)

Module Samples.

Definition book (ident ttl : string) (authors : list string) : node :=
  File (EpubDoc (mkMetadata ident ttl authors "") false).

Definition protected_book (ident ttl : string) (authors : list string) : node :=
  File (EpubDoc (mkMetadata ident ttl authors "") true).

Definition broken : node := File (Blob []).

(** One file that does not decode. *)
Definition solo_broken : gmap Path node :=
  list_to_map [(["lib"], Dir); (["lib"; "b.epub"], broken)].

(** One readable book. *)
Definition solo : gmap Path node :=
  list_to_map [(["lib"], Dir);
               (["lib"; "a.epub"], book "ISBN-1" "My, Book" ["Ann"])].

(** A readable book and a file that does not decode. *)
Definition pair : gmap Path node :=
  list_to_map [(["lib"], Dir);
               (["lib"; "a.epub"], book "ISBN-1" "First" ["Ann"]);
               (["lib"; "b.epub"], broken)].

(** Two copies of one work. *)
Definition twins : gmap Path node :=
  list_to_map [(["lib"], Dir);
               (["lib"; "a.epub"], book "ISBN-1" "First" ["Ann"]);
               (["lib"; "c.epub"], book "ISBN-1" "First" ["Ann"])].

(** Two copies of one work and a file that does not decode. *)
Definition twins_and_broken : gmap Path node :=
  list_to_map [(["lib"], Dir);
               (["lib"; "a.epub"], book "ISBN-1" "First" ["Ann"]);
               (["lib"; "b.epub"], broken);
               (["lib"; "c.epub"], book "ISBN-1" "First" ["Ann"])].

(** Two copies of one work under the same file name. *)
Definition same_name_twins : gmap Path node :=
  list_to_map [(["l1"], Dir); (["l2"], Dir);
               (["l1"; "x.epub"], book "ISBN-1" "First" ["Ann"]);
               (["l2"; "x.epub"], book "ISBN-1" "First" ["Ann"])].

(** A book in a nested folder. *)
Definition nested : gmap Path node :=
  list_to_map [(["lib"], Dir); (["lib"; "sub"], Dir);
               (["lib"; "sub"; "x.epub"], book "ISBN-1" "First" ["Ann"])].

(** Two write-protected books. *)
Definition protected : gmap Path node :=
  list_to_map [(["lib"], Dir);
               (["lib"; "a.epub"], protected_book "ISBN-1" "First" ["Ann"]);
               (["lib"; "c.epub"], protected_book "ISBN-2" "Second" ["Bob"])].


(** Two copies of one work, the second one write-protected. *)
Definition half_protected : gmap Path node :=
  list_to_map [(["lib"], Dir);
               (["lib"; "a.epub"], book "ISBN-1" "First" ["Ann"]);
               (["lib"; "c.epub"], protected_book "ISBN-1" "First" ["Ann"])].

Definition only_author : Args := mkArgs false true false false.

End Samples.

(** ** Vocabulary of the further properties *)


(** What an update leaves of a dict that carries the identifier: the two
    flags are kept, the metadata and the path are the supplied ones where
    one is supplied. *)
Definition rewritten_entry (md : option Metadata) (new_path : option Path)
    (d : entry) : entry :=
  {| is_duplicate := is_duplicate d;
     is_failed := is_failed d;
     metadata := match md with Some m => m | None => metadata d end;
     path := match new_path with Some q => q | None => path d end |}.

(** A name that is one part of a path: what [Path.name] returns for a
    regular path. *)
Definition simple_name (n : string) : Prop :=
  Pathlib.parse n = [n] /\ n <> "/".

(** The dict after [move_duplicate] has run on it. *)
Definition marked (dup : Path) (d : entry) : entry :=
  mkEntry true (is_failed d) (metadata d) (dup // Pathlib.name (path d)).

(** The identifier occurs more than once among the files that decoded. *)
Definition collides (s : State) (d : entry) : bool :=
  (1 <? PyStr.count (identifier (metadata d)) (identifier_list s))%nat.

(** What the pass may do to a dict: set the duplicate flag and change the
    path, nothing else. *)
Definition flagged_from (d d' : entry) : Prop :=
  metadata d' = metadata d /\ is_failed d' = is_failed d
  /\ (is_duplicate d = true -> is_duplicate d' = true).

(** The fields of [self] that [extract_metadata] only reads. *)
Definition same_folders (s s' : State) : Prop :=
  duplicate_folder s' = duplicate_folder s
  /\ failed_folder s' = failed_folder s
  /\ processed_folder s' = processed_folder s
  /\ epub_list s' = epub_list s
  /\ csv_header s' = csv_header s
  /\ csv_output s' = csv_output s
  /\ stdin s' = stdin s.

(** The entry recorded for the listed file [p]. *)
Definition recorded_for (s : State) (p : Path) (d : entry) : Prop :=
  is_duplicate d = false
  /\ path d = (if is_failed d then failed_folder s else processed_folder s)
              // Pathlib.name p.

(** Every failed entry of [new] has the metadata that the local variable
    holds when it is recorded: that of the entry before it, or [local] for
    the first one. *)
Fixpoint chained (local : option Metadata) (new : list entry) : Prop :=
  match new with
  | [] => True
  | d :: rest =>
      (is_failed d = true -> local = Some (metadata d))
      /\ chained (Some (metadata d)) rest
  end.

(** The value of the local variable after the entries [new] have been
    recorded. *)
Definition local_after (local : option Metadata) (new : list entry)
    : option Metadata :=
  match last new with
  | Some d => Some (metadata d)
  | None => local
  end.

(** The identifiers of the entries of [new] that are not failed, in
    order. *)
Definition decoded_identifiers (new : list entry) : list string :=
  map (fun d => identifier (metadata d))
      (List.filter (fun d => negb (is_failed d)) new).

(** A directory below the working directory that holds nothing. *)
Definition empty_dir (f : gmap Path node) (p : Path) : Prop :=
  p <> [] /\ f !! p = Some Dir /\ FS.iterdir f p = [].

(** The managed folders of [Epub()]. *)
Definition default_folders : list Path :=
  [["[duplicates]"]; ["[failed]"]; ["[processed]"]].

(** The file decodes. *)
Definition decodes (f : gmap Path node) (p : Path) : bool :=
  match FS.get_metadata f p with
  | inr _ => true
  | inl _ => false
  end.

(** Every non-empty prefix of [p] is a directory. *)
Definition dir_chain (f : gmap Path node) (p : Path) : Prop :=
  forall k, 0 < k <= length p -> f !! take k p = Some Dir.

(** * Properties *)

(** ** The catalog update, [update_data] *)

Section UpdateData.
Variables (ident : string) (md : option Metadata) (new_path : option Path).

Lemma alter_middle (f : entry -> entry) (pre : list entry) d rest :
  alter f (length pre) (pre ++ d :: rest) = pre ++ f d :: rest.
Proof.
  induction pre as [|x pre IH]; simpl; [done | by f_equal].
Qed.

Lemma lookup_middle (pre : list entry) d rest :
  (pre ++ d :: rest) !! length pre = Some d.
Proof. by rewrite list_lookup_middle. Qed.

Lemma update_one_skip pre d rest s :
  data s = pre ++ d :: rest -> carries ident d = false ->
  update_one ident md new_path (length pre) s = Return tt s.
Proof.
  intros Hd Hc. unfold update_one, bind, deref.
  rewrite Hd, lookup_middle. unfold carries in Hc. by rewrite Hc.
Qed.

Lemma update_one_hit pre d rest s :
  data s = pre ++ d :: rest -> carries ident d = true ->
  (forall m, md = Some m -> rewritable (fs s) (path d)) ->
  exists s',
    update_one ident md new_path (length pre) s = Return tt s'
    /\ data s' = pre ++ updated ident md new_path d :: rest
    /\ fs s' = written ident md [d] (fs s)
    /\ same_self s s'.
Proof.
  intros Hd Hc Hw. unfold update_one, bind, deref.
  rewrite Hd, lookup_middle. pose proof Hc as Hc'. unfold carries in Hc'.
  rewrite Hc'. unfold updated, written.
  destruct md as [m|]; destruct new_path as [p|]; simpl; rewrite Hc;
    unfold set_metadata, lift_fs, assign, modify, ret;
    try (destruct (Hw m eq_refl) as [m0 Hm0];
         unfold FS.set_metadata; rewrite Hm0);
    (eexists; split; [reflexivity|]); simpl;
    rewrite ?Hd, ?alter_middle, ?alter_middle; repeat split; reflexivity.
Qed.

Lemma same_self_refl s : same_self s s.
Proof. repeat split. Qed.

Lemma same_self_trans s1 s2 s3 :
  same_self s1 s2 -> same_self s2 s3 -> same_self s1 s3.
Proof. unfold same_self. intuition congruence. Qed.

Lemma rewritable_dec f p : {rewritable f p} + {~ rewritable f p}.
Proof.
  unfold rewritable.
  destruct (f !! p) as [[|[m0 [|]|rows]]|] eqn:E;
    try (right; intros [m1 H]; discriminate).
  left. by exists m0.
Qed.

Lemma rewritable_insert f p q m :
  rewritable f p -> rewritable (<[q := File (EpubDoc m false)]> f) p.
Proof.
  intros [m0 H]. unfold rewritable.
  destruct (decide (q = p)) as [->|Hne].
  - exists m. apply lookup_insert_eq.
  - exists m0. by rewrite lookup_insert_ne.
Qed.

Lemma rewritable_written f p l :
  rewritable f p -> rewritable (written ident md l f) p.
Proof.
  unfold written. destruct md as [m|]; [|done].
  revert f. induction l as [|d l IH]; intros f H; simpl; [done|].
  apply IH. destruct (carries ident d); [by apply rewritable_insert | done].
Qed.

Lemma written_cons d l f :
  written ident md (d :: l) f = written ident md l (written ident md [d] f).
Proof. unfold written. by destruct md. Qed.

Lemma written_skip d f : carries ident d = false -> written ident md [d] f = f.
Proof. intros H. unfold written. destruct md; simpl; [by rewrite H | done]. Qed.

Lemma updated_skip d : carries ident d = false -> updated ident md new_path d = d.
Proof. intros H. unfold updated. by rewrite H. Qed.

Lemma update_one_refused pre d rest s m :
  data s = pre ++ d :: rest -> carries ident d = true -> md = Some m ->
  ~ rewritable (fs s) (path d) ->
  update_one ident md new_path (length pre) s = Raise EncodeError s.
Proof.
  intros Hd Hc -> Hw. unfold update_one, bind, deref.
  rewrite Hd, lookup_middle. unfold carries in Hc. rewrite Hc.
  unfold set_metadata, lift_fs, FS.set_metadata.
  destruct (fs s !! path d) as [[|[m0 [|]|rows]]|] eqn:E; try reflexivity.
  exfalso. apply Hw. by exists m0.
Qed.

Lemma update_loop_returns rest : forall pre s,
  data s = pre ++ rest ->
  (forall m d, md = Some m -> d ∈ rest -> carries ident d = true ->
               rewritable (fs s) (path d)) ->
  exists s',
    for_each (seq (length pre) (length rest))
             (update_one ident md new_path) s = Return tt s'
    /\ data s' = pre ++ map (updated ident md new_path) rest
    /\ fs s' = written ident md rest (fs s)
    /\ same_self s s'.
Proof.
  induction rest as [|d rest IH]; intros pre s Hd Hw.
  - exists s. simpl. unfold ret. rewrite Hd.
    repeat split; try reflexivity. unfold written. by destruct md.
  - simpl. unfold bind at 1.
    assert (Hlen : S (length pre) = length (pre ++ [d]))
      by (rewrite length_app; simpl; lia).
    destruct (carries ident d) eqn:Hc.
    + destruct (update_one_hit pre d rest s Hd Hc)
        as (s1 & Hrun & Hd1 & Hf1 & Hs1).
      { intros m Hm. eapply Hw; eauto. apply list_elem_of_here. }
      rewrite Hrun.
      destruct (IH (pre ++ [updated ident md new_path d]) s1)
        as (s2 & Hrun2 & Hd2 & Hf2 & Hs2).
      { by rewrite Hd1, <- app_assoc. }
      { intros m d' Hm Hin Hc'. rewrite Hf1. apply rewritable_written.
        eapply Hw; eauto. by apply list_elem_of_further. }
      exists s2. rewrite length_app in Hrun2. simpl in Hrun2.
      replace (length pre + 1) with (S (length pre)) in Hrun2 by lia.
      split; [exact Hrun2|]. split; [by rewrite Hd2, <- app_assoc|].
      split; [by rewrite Hf2, Hf1, <- written_cons|].
      eapply same_self_trans; eauto.
    + rewrite (update_one_skip pre d rest s Hd Hc).
      destruct (IH (pre ++ [d]) s) as (s2 & Hrun2 & Hd2 & Hf2 & Hs2).
      { by rewrite Hd, <- app_assoc. }
      { intros m d' Hm Hin Hc'. eapply Hw; eauto.
        by apply list_elem_of_further. }
      exists s2. rewrite length_app in Hrun2. simpl in Hrun2.
      replace (length pre + 1) with (S (length pre)) in Hrun2 by lia.
      split; [exact Hrun2|]. rewrite updated_skip by done.
      split; [by rewrite Hd2, <- app_assoc|].
      split; [by rewrite written_cons, written_skip|done].
Qed.

Lemma update_loop_raises rest : forall pre s e s',
  data s = pre ++ rest ->
  for_each (seq (length pre) (length rest))
           (update_one ident md new_path) s = Raise e s' ->
  exists m finished d todo,
    md = Some m /\ rest = finished ++ d :: todo
    /\ carries ident d = true
    /\ e = EncodeError
    /\ ~ rewritable (fs s') (path d)
    /\ data s' = pre ++ map (updated ident md new_path) finished ++ d :: todo
    /\ fs s' = written ident md finished (fs s)
    /\ same_self s s'.
Proof.
  induction rest as [|d rest IH]; intros pre s e s' Hd Hrun.
  - discriminate.
  - simpl in Hrun. unfold bind at 1 in Hrun.
    assert (Hlen : S (length pre) = length (pre ++ [d]))
      by (rewrite length_app; simpl; lia).
    assert (Hlen' : S (length pre)
                    = length (pre ++ [updated ident md new_path d]))
      by (rewrite length_app; simpl; lia).
    destruct (carries ident d) eqn:Hc.
    + destruct (rewritable_dec (fs s) (path d)) as [Hw|Hw].
      * destruct (update_one_hit pre d rest s Hd Hc)
          as (s1 & Hrun1 & Hd1 & Hf1 & Hs1); [by intros|].
        rewrite Hrun1, Hlen' in Hrun.
        apply IH in Hrun; [|by rewrite Hd1, <- app_assoc].
        destruct Hrun as (m & fin & d' & todo & Hm & -> & Hc' & He & Hnw
                          & Hd2 & Hf2 & Hs2).
        exists m, (d :: fin), d', todo. simpl.
        repeat (split; [done|]).
        split; [by rewrite Hd2, <- app_assoc|].
        split; [by rewrite Hf2, Hf1, <- written_cons|].
        eapply same_self_trans; eauto.
      * assert (Hcase : (exists m, md = Some m) \/ md = None)
          by (destruct md; eauto).
        destruct Hcase as [[m Hmd]|Hmd].
        -- rewrite (update_one_refused pre d rest s m Hd Hc Hmd Hw) in Hrun.
           inversion Hrun; subst.
           exists m, [], d, rest. simpl. rewrite Hd.
           repeat (split; [done|]). apply same_self_refl.
        -- destruct (update_one_hit pre d rest s Hd Hc)
             as (s1 & Hrun1 & Hd1 & Hf1 & Hs1); [intros; congruence|].
           rewrite Hrun1, Hlen' in Hrun.
           apply IH in Hrun; [|by rewrite Hd1, <- app_assoc].
           destruct Hrun as (m & _ & _ & _ & Hm & _). congruence.
    + rewrite (update_one_skip pre d rest s Hd Hc), Hlen in Hrun.
      apply IH in Hrun; [|by rewrite Hd, <- app_assoc].
      destruct Hrun as (m & fin & d' & todo & Hm & -> & Hc' & He & Hnw
                        & Hd2 & Hf2 & Hs2).
      exists m, (d :: fin), d', todo. simpl.
      rewrite updated_skip by done.
      repeat (split; [done|]).
      split; [by rewrite Hd2, <- app_assoc|].
      split; [by rewrite Hf2, written_cons, written_skip|done].
Qed.

Lemma written_keeps f p m l :
  md = Some m -> f !! p = Some (File (EpubDoc m false)) ->
  written ident md l f !! p = Some (File (EpubDoc m false)).
Proof.
  intros Hm. unfold written. rewrite Hm. revert f.
  induction l as [|d l IH]; intros f H; simpl; [done|].
  apply IH. destruct (carries ident d); [|done].
  destruct (decide (path d = p)) as [->|Hne].
  - apply lookup_insert_eq.
  - by rewrite lookup_insert_ne.
Qed.

Lemma written_lookup_hit f m l d :
  md = Some m -> d ∈ l -> carries ident d = true ->
  written ident md l f !! path d = Some (File (EpubDoc m false)).
Proof.
  intros Hm Hin Hc. revert f.
  induction l as [|d0 l IH]; intros f; [by apply not_elem_of_nil in Hin|].
  rewrite written_cons.
  apply elem_of_cons in Hin as [<-|Hin].
  - apply written_keeps; [done|]. unfold written. rewrite Hm. simpl.
    rewrite Hc. apply lookup_insert_eq.
  - by apply IH.
Qed.

Lemma written_lookup_other f l p :
  (forall d, d ∈ l -> carries ident d = true -> path d <> p) ->
  written ident md l f !! p = f !! p.
Proof.
  unfold written. destruct md as [m|]; [|done]. revert f.
  induction l as [|d l IH]; intros f H; simpl; [done|].
  rewrite IH.
  - destruct (carries ident d) eqn:Hc; [|done].
    rewrite lookup_insert_ne; [done|]. apply H; [apply list_elem_of_here|done].
  - intros d' Hin. apply H. by apply list_elem_of_further.
Qed.

Lemma update_loop_return_inv rest : forall pre s s',
  data s = pre ++ rest ->
  for_each (seq (length pre) (length rest))
           (update_one ident md new_path) s = Return tt s' ->
  forall m d, md = Some m -> d ∈ rest -> carries ident d = true ->
              rewritable (fs s) (path d).
Proof.
  induction rest as [|d rest IH]; intros pre s s' Hd Hrun m d' Hm Hin Hc'.
  - by apply not_elem_of_nil in Hin.
  - simpl in Hrun. unfold bind at 1 in Hrun.
    assert (Hlen : S (length pre) = length (pre ++ [d]))
      by (rewrite length_app; simpl; lia).
    assert (Hlen' : S (length pre)
                    = length (pre ++ [updated ident md new_path d]))
      by (rewrite length_app; simpl; lia).
    destruct (carries ident d) eqn:Hc.
    + destruct (rewritable_dec (fs s) (path d)) as [Hw|Hw].
      * apply elem_of_cons in Hin as [->|Hin]; [done|].
        destruct (update_one_hit pre d rest s Hd Hc)
          as (s1 & Hrun1 & Hd1 & Hf1 & Hs1); [by intros|].
        rewrite Hrun1, Hlen' in Hrun.
        assert (Hd1' : data s1 = (pre ++ [updated ident md new_path d]) ++ rest)
          by (by rewrite Hd1, <- app_assoc).
        pose proof (IH _ _ _ Hd1' Hrun m d' Hm Hin Hc') as [m0 H0].
        rewrite Hf1 in H0. unfold written in H0. rewrite Hm in H0.
        simpl in H0. rewrite Hc in H0.
        destruct (decide (path d = path d')) as [E|Hne].
        -- by rewrite <- E.
        -- rewrite lookup_insert_ne in H0 by done. by exists m0.
      * rewrite (update_one_refused pre d rest s m Hd Hc Hm Hw) in Hrun.
        discriminate.
    + rewrite (update_one_skip pre d rest s Hd Hc), Hlen in Hrun.
      apply elem_of_cons in Hin as [->|Hin]; [congruence|].
      eapply (IH (pre ++ [d])); eauto. by rewrite Hd, <- app_assoc.
Qed.
End UpdateData.

Lemma rewritable_true f p : FS.rewritable f p = true <-> rewritable f p.
Proof.
  unfold FS.rewritable, rewritable.
  destruct (f !! p) as [[|[m0 [|]|rows]]|]; split;
    try discriminate; try (intros [m1 H]; discriminate); eauto.
Qed.

Lemma updated_hit_metadata ident m new_path d :
  carries ident d = true ->
  metadata (updated ident (Some m) new_path d) = m.
Proof. intros H. unfold updated. rewrite H. by destruct new_path. Qed.

Lemma updated_hit_path ident md p d :
  carries ident d = true -> path (updated ident md (Some p) d) = p.
Proof. intros H. unfold updated. by rewrite H. Qed.

Lemma updated_untouched ident md new_path d :
  carries ident d = false -> updated ident md new_path d = d.
Proof. intros H. unfold updated. by rewrite H. Qed.

(** [updated] spelled out field by field. *)
Lemma updated_fields ident md new_path d :
  updated ident md new_path d
  = if carries ident d then rewritten_entry md new_path d else d.
Proof.
  unfold updated, rewritten_entry.
  destruct (carries ident d); [|done].
  by destruct md, new_path, d.
Qed.

(** C10, as the code has it: one call of [update_data] visits every entry
    whose recorded identifier equals the given one.  When every write it
    attempts can succeed, the call returns and the catalog keeps its length
    and order; every entry carrying the identifier keeps its two flags and
    has the supplied metadata and the supplied path (each where one is
    supplied), every other entry is unchanged; when metadata is supplied,
    the file at the path each such entry had recorded holds it, and no
    other file is touched. *)
Theorem update_data_reaches_every_match ident md new_path s :
  writes_succeed ident md s = true ->
  exists s',
    update_data ident md new_path s = Return tt s'
    /\ length (data s') = length (data s)
    /\ (forall i d, data s !! i = Some d ->
          data s' !! i
          = Some (if carries ident d
                  then {| is_duplicate := is_duplicate d;
                          is_failed := is_failed d;
                          metadata := match md with
                                      | Some m => m
                                      | None => metadata d
                                      end;
                          path := match new_path with
                                  | Some q => q
                                  | None => path d
                                  end |}
                  else d))
    /\ (forall m d, md = Some m -> d ∈ data s -> carries ident d = true ->
                    fs s' !! path d = Some (File (EpubDoc m false)))
    /\ (forall p, (forall d, d ∈ data s -> carries ident d = true -> path d <> p) ->
                  fs s' !! p = fs s !! p)
    /\ (md = None -> fs s' = fs s)
    /\ same_self s s'.
Proof.
  intros Hok. unfold update_data, bind, get.
  assert (Hw : forall m d, md = Some m -> d ∈ data s ->
                           carries ident d = true -> rewritable (fs s) (path d)).
  { intros m d Hm Hin Hc. unfold writes_succeed in Hok. rewrite Hm in Hok.
    rewrite forallb_forall in Hok. apply list_elem_of_In in Hin.
    specialize (Hok d Hin). rewrite Hc in Hok. by apply rewritable_true. }
  destruct (update_loop_returns ident md new_path (data s) [] s eq_refl Hw)
    as (s' & Hrun & Hd & Hf & Hs).
  exists s'. simpl in Hrun, Hd. split; [exact Hrun|].
  split; [by rewrite Hd, length_map|].
  split.
  { intros i d Hi. rewrite Hd, list_lookup_fmap, Hi. simpl.
    by rewrite updated_fields. }
  split; [|split; [|split; [|exact Hs]]].
  - intros m d Hm Hin Hc. rewrite Hf. by apply written_lookup_hit.
  - intros p Hp. rewrite Hf. by apply written_lookup_other.
  - intros ->. by rewrite Hf.
Qed.

Lemma update_data_reaches_every_match_witness :
  let s := final (classifier [["lib"; "a.epub"]; ["lib"; "c.epub"]]
                             (Epub Samples.twins [])) in
  let m := mkMetadata "ISBN-1" "Retitled" ["Ann"] "" in
  let p := ["[processed]"; "Ann"; "a.epub"] in
  writes_succeed "ISBN-1" (Some m) s = true
  /\ exists s',
      update_data "ISBN-1" (Some m) (Some p) s = Return tt s'
      /\ length (data s') = length (data s)
      /\ (forall i d, data s !! i = Some d ->
            data s' !! i
            = Some (if carries "ISBN-1" d
                    then {| is_duplicate := is_duplicate d;
                            is_failed := is_failed d;
                            metadata := m;
                            path := p |}
                    else d))
      /\ (forall m' d, Some m = Some m' -> d ∈ data s ->
                       carries "ISBN-1" d = true ->
                       fs s' !! path d = Some (File (EpubDoc m' false)))
      /\ (forall q, (forall d, d ∈ data s -> carries "ISBN-1" d = true ->
                               path d <> q) ->
                    fs s' !! q = fs s !! q)
      /\ (Some m = None -> fs s' = fs s)
      /\ same_self s s'.
Proof.
  split; [vm_compute; reflexivity|].
  apply (update_data_reaches_every_match "ISBN-1"
           (Some (mkMetadata "ISBN-1" "Retitled" ["Ann"] ""))
           (Some ["[processed]"; "Ann"; "a.epub"])).
  vm_compute. reflexivity.
Defined.

(** C10, as the claim has it, fails: two entries carry the identifier and
    the file of the second is write-protected.  The update rewrites the
    first file and replaces the first record, then raises at the second:
    the second entry, which carries the identifier too, keeps its old
    metadata and its file is as before. *)
Lemma update_stops_at_failed_write :
  let s := final (classifier [["lib"; "a.epub"]; ["lib"; "c.epub"]]
                             (Epub Samples.half_protected [])) in
  let m := mkMetadata "ISBN-1" "Retitled" ["Ann"] "" in
  let o := update_data "ISBN-1" (Some m) None s in
  carries "ISBN-1" <$> data s = [true; true]
  /\ raised o = Some EncodeError
  /\ title <$> (metadata <$> data (final o)) = ["Retitled"; "First"]
  /\ fs (final o) !! ["[processed]"; "c.epub"]
     = Some (Samples.protected_book "ISBN-1" "First" ["Ann"]).
Proof. vm_compute. repeat split; reflexivity. Qed.

(** C9, as the code has it: when some entry carrying the identifier has a
    file that cannot be rewritten, [update_data] raises [EncodeError] to its
    caller.  The entry whose write failed and all entries after it keep
    their metadata and location; the entries before it have already been
    updated, and their files rewritten. *)
Theorem update_data_write_failure ident m new_path s :
  some_write_fails ident s = true ->
  exists s' finished d todo,
    update_data ident (Some m) new_path s = Raise EncodeError s'
    /\ data s = finished ++ d :: todo
    /\ carries ident d = true
    /\ FS.rewritable (fs s') (path d) = false
    /\ data s' = map (updated ident (Some m) new_path) finished ++ d :: todo
    /\ fs s' = written ident (Some m) finished (fs s)
    /\ same_self s s'.
Proof.
  intros Hex. unfold some_write_fails in Hex. apply existsb_exists in Hex.
  destruct Hex as (d0 & Hin & Hboth). apply andb_prop in Hboth as [Hc Hnw].
  apply negb_true_iff in Hnw. apply list_elem_of_In in Hin.
  unfold update_data, bind, get.
  destruct (for_each (seq 0 (length (data s)))
                     (update_one ident (Some m) new_path) s)
    as [[] s'|e s'] eqn:Hrun.
  - exfalso.
    assert (Hw : rewritable (fs s) (path d0)).
    { eapply (update_loop_return_inv ident (Some m) new_path (data s) [] s s');
        eauto. }
    apply rewritable_true in Hw. congruence.
  - apply (update_loop_raises ident (Some m) new_path (data s) [] s e s' eq_refl)
      in Hrun as (m' & fin & d & todo & Hm & Hd & Hc' & -> & Hnw' & Hd' & Hf & Hs).
    exists s', fin, d, todo. repeat (split; [done|]).
    split; [|done].
    destruct (FS.rewritable (fs s') (path d)) eqn:E; [|done].
    exfalso. by apply Hnw', rewritable_true.
Qed.

Lemma update_data_write_failure_witness :
  let s := final (classifier [["lib"; "a.epub"]; ["lib"; "c.epub"]]
                             (Epub Samples.protected [])) in
  let m := mkMetadata "ISBN-1" "Retitled" ["Ann"] "" in
  some_write_fails "ISBN-1" s = true
  /\ exists s' finished d todo,
      update_data "ISBN-1" (Some m) None s = Raise EncodeError s'
      /\ data s = finished ++ d :: todo
      /\ carries "ISBN-1" d = true
      /\ FS.rewritable (fs s') (path d) = false
      /\ data s' = map (updated "ISBN-1" (Some m) None) finished ++ d :: todo
      /\ fs s' = written "ISBN-1" (Some m) finished (fs s)
      /\ same_self s s'.
Proof.
  split; [vm_compute; reflexivity|].
  apply update_data_write_failure. vm_compute. reflexivity.
Defined.

(** C9, as the specification has it, fails: in a run with the author pass
    over two write-protected books, the operator asks to change the first
    one; the write fails and the exception leaves [main].  The second book
    is never offered (its two answers stay unread) and no report is
    written. *)
Lemma write_failure_is_fatal :
  let o := main_listing [["lib"; "a.epub"]; ["lib"; "c.epub"]]
                        Samples.only_author
                        (Epub Samples.protected ["y"; "Zed"; "y"; "Zed"]) in
  raised o = Some EncodeError
  /\ stdin (final o) = ["y"; "Zed"]
  /\ fs (final o) !! csv_output (final o) = None.
Proof. vm_compute. repeat split; reflexivity. Qed.

(** ** The report, [generate_csv] *)

Lemma sorted_header : PyStr.sorted String.leb CSV_HEADER = report_header.
Proof. reflexivity. Qed.

Lemma dict_to_list_row d :
  dict_to_list report_header (row_of d) = inr (report_row d).
Proof. by destruct d as [[] [] m p]. Qed.

Lemma write_loop out : forall (l : list entry) (acc : list (list string)) s,
  fs s !! out = Some (File (Blob acc)) ->
  exists s',
    for_each (map row_of l)
      (fun row => match dict_to_list report_header row with
                  | inl e => raise e
                  | inr r => writerow out r
                  end) s = Return tt s'
    /\ fs s' = <[out := File (Blob (acc ++ map report_row l))]> (fs s)
    /\ data s' = data s.
Proof.
  induction l as [|d l IH]; intros acc s Hout.
  - exists s. simpl. rewrite app_nil_r. split; [done|]. split; [|done].
    symmetry. by apply insert_id.
  - cbn [map for_each]. unfold bind at 1. rewrite dict_to_list_row.
    unfold writerow, lift_fs. rewrite Hout.
    destruct (IH (acc ++ [report_row d])
                 (with_fs (<[out:=File (Blob (acc ++ [report_row d]))]> (fs s)) s))
      as (s' & Hrun & Hf & Hd).
    { simpl. apply lookup_insert_eq. }
    exists s'. split; [exact Hrun|]. split; [|exact Hd].
    rewrite Hf. simpl. rewrite insert_insert_eq. by rewrite <- app_assoc.
Qed.

(** C6: with the header that [__post_init__] sets and an output path that
    can be opened, [generate_csv] returns and the report holds the seven
    column names in sorted order followed by exactly one row per entry of
    [self.data], in order; the flags of a row are the literals [True] and
    [False] for the entry's [is_duplicate] and [is_failed]. *)
Theorem generate_csv_shape s :
  csv_header s = CSV_HEADER ->
  FS.is_dir (fs s) (csv_output s) = false ->
  FS.is_dir (fs s) (Pathlib.parent (csv_output s)) = true ->
  exists s' rows,
    generate_csv s = Return tt s'
    /\ fs s' !! csv_output s
       = Some (File (Blob (["author"; "file"; "identifier"; "is_duplicate";
                            "is_failed"; "path"; "title"] :: rows)))
    /\ length rows = length (data s)
    /\ (forall i d, data s !! i = Some d ->
          exists r, rows !! i = Some r
            /\ r = report_row d
            /\ r !! 3 = Some (if is_duplicate d then "True" else "False")
            /\ r !! 4 = Some (if is_failed d then "True" else "False"))
    /\ data s' = data s.
Proof.
  intros Hh Hnd Hpd. unfold generate_csv, bind, get, lift_fs, FS.write_rows.
  rewrite Hnd, Hpd, Hh, sorted_header. simpl.
  unfold writerow at 1, lift_fs. simpl. rewrite lookup_insert_eq.
  rewrite insert_insert_eq.
  destruct (write_loop (csv_output s) (data s) [report_header]
              (with_fs (<[csv_output s:=File (Blob ([] ++ [report_header]))]> (fs s)) s))
    as (s' & Hrun & Hf & Hd).
  { simpl. apply lookup_insert_eq. }
  exists s', (map report_row (data s)). simpl in *.
  split; [exact Hrun|]. split; [by rewrite Hf, lookup_insert_eq|].
  split; [by rewrite length_map|]. split; [|done].
  intros i d Hi. exists (report_row d).
  split; [by rewrite list_lookup_fmap, Hi|]. done.
Qed.

Lemma generate_csv_shape_witness :
  let s := final (classifier [["lib"; "a.epub"]; ["lib"; "c.epub"]]
                             (Epub Samples.twins [])) in
  csv_header s = CSV_HEADER
  /\ FS.is_dir (fs s) (csv_output s) = false
  /\ FS.is_dir (fs s) (Pathlib.parent (csv_output s)) = true
  /\ exists s' rows,
      generate_csv s = Return tt s'
      /\ fs s' !! csv_output s
         = Some (File (Blob (["author"; "file"; "identifier"; "is_duplicate";
                              "is_failed"; "path"; "title"] :: rows)))
      /\ length rows = length (data s)
      /\ (forall i d, data s !! i = Some d ->
            exists r, rows !! i = Some r
              /\ r = report_row d
              /\ r !! 3 = Some (if is_duplicate d then "True" else "False")
              /\ r !! 4 = Some (if is_failed d then "True" else "False"))
      /\ data s' = data s.
Proof.
  split; [vm_compute; reflexivity|].
  split; [vm_compute; reflexivity|].
  split; [vm_compute; reflexivity|].
  apply generate_csv_shape; vm_compute; reflexivity.
Defined.

(** ** The rename pass, [rename_file] *)

Lemma sanitized_get t : forall i,
  String.get i (sanitized t) = underscore <$> String.get i t.
Proof.
  unfold sanitized. induction t as [|c t IH]; intros i; simpl; [done|].
  destruct i as [|i].
  - simpl. unfold underscore.
    destruct (Ascii.eqb c ",") eqn:E1; simpl; [done|].
    by destruct (Ascii.eqb c " ").
  - apply IH.
Qed.






(** ** Names and joined paths *)

Lemma div_simple (p : Path) n : simple_name n -> p // n = p ++ [n].
Proof.
  intros [Hp Hn]. unfold Pathlib.div. rewrite Hp. simpl.
  destruct (String.eqb_spec n "/"); [done|reflexivity].
Qed.

Lemma name_div (p : Path) n : simple_name n -> Pathlib.name (p // n) = n.
Proof.
  intros H. rewrite div_simple by done. destruct H as [_ Hn].
  unfold Pathlib.name.
  destruct (Pathlib.is_absolute (p ++ [n]) && (length (p ++ [n]) =? 1)%nat)
    eqn:E.
  - apply andb_prop in E as [Ha Hl]. apply Nat.eqb_eq in Hl.
    rewrite length_app in Hl. simpl in Hl.
    destruct p; [|simpl in Hl; lia]. simpl in Ha.
    by apply String.eqb_eq in Ha.
  - apply last_last.
Qed.

Lemma parent_div (p : Path) n : simple_name n -> Pathlib.parent (p // n) = p.
Proof.
  intros H. rewrite div_simple by done. destruct H as [_ Hn].
  unfold Pathlib.parent.
  destruct (Pathlib.is_absolute (p ++ [n]) && (length (p ++ [n]) =? 1)%nat)
    eqn:E.
  - apply andb_prop in E as [Ha Hl]. apply Nat.eqb_eq in Hl.
    rewrite length_app in Hl. simpl in Hl.
    destruct p; [|simpl in Hl; lia]. simpl in Ha.
    by apply String.eqb_eq in Ha.
  - apply removelast_last.
Qed.

(** ** Plain names *)









(** A title with a slash is not one part of a path: the file leaves the
    top of the processed folder, or the processed folder altogether.  An
    empty title with an empty suffix gives a single dot, and the target is
    the processed folder itself. *)
Lemma rename_title_with_slash :
  ["[processed]"] // renamed_name "a/b" ".epub" = ["[processed]"; "a"; "b..epub"]
  /\ ["[processed]"] // renamed_name "/x" ".epub" = ["/"; "x..epub"]
  /\ ["[processed]"] // renamed_name "" "" = ["[processed]"].
Proof. vm_compute. repeat split; reflexivity. Qed.


(** The example of the specification: the suffix of a path begins with its
    dot, and the f-string adds one more. *)
Lemma rename_my_book :
  Pathlib.suffix ["[processed]"; "a.epub"] = ".epub"
  /\ renamed_name "My, Book" (Pathlib.suffix ["[processed]"; "a.epub"])
     = "My__Book..epub".
Proof. vm_compute. split; reflexivity. Qed.

(** ** The Classifier, [extract_metadata] *)

Section Classifier.
Variables (s : State) (epub : Path).
Hypothesis Hfile : FS.is_file (fs s) epub = true.
Hypothesis Hout : Pathlib.parent epub ∉ managed_folders s.
Hypothesis Hbad : FS.get_metadata (fs s) epub = inl DecodeError.

(** A file that fails to decode before any file has decoded: the
    [except] branch moves it and the dict display then reads the unbound
    local [metadata]. *)
Lemma extract_one_unbound :
  exists e s', extract_one None epub s = Raise e s'
    /\ data s' = data s
    /\ (forall f, FS.rename (fs s) epub (failed_folder s // Pathlib.name epub)
                  = inr f ->
                  e = UnboundLocalError /\ fs s' = f).
Proof.
  unfold extract_one, bind, get. rewrite Hfile.
  rewrite bool_decide_eq_false_2 by exact Hout. simpl. rewrite Hbad.
  unfold rename, lift_fs, raise.
  destruct (FS.rename (fs s) epub (failed_folder s // Pathlib.name epub))
    as [e|f].
  - exists e, s. split; [done|]. split; [done|]. intros f Hf. discriminate.
  - eexists _, _. split; [reflexivity|]. split; [done|].
    intros f' Hf. by inversion Hf.
Qed.

(** A file that fails to decode after another one has decoded: its dict
    is given the metadata object of that earlier file. *)
Lemma extract_one_stale md f :
  FS.rename (fs s) epub (failed_folder s // Pathlib.name epub) = inr f ->
  exists s', extract_one (Some md) epub s = Return (Some md) s'
    /\ data s' = data s ++ [mkEntry false true md
                                    (failed_folder s // Pathlib.name epub)]
    /\ identifier_list s' = identifier_list s
    /\ fs s' = f.
Proof.
  intros Hf. unfold extract_one, bind, get. rewrite Hfile.
  rewrite bool_decide_eq_false_2 by exact Hout. simpl. rewrite Hbad.
  unfold rename, lift_fs. rewrite Hf. simpl.
  eexists. split; [reflexivity|]. done.
Qed.
End Classifier.

(** C4 fails on the code: a single file that does not decode.  The file is
    moved to the failed folder, then the run ends with [UnboundLocalError]:
    no catalog entry is recorded and no report is written.  When such a
    file comes first and a readable one second, the readable one is never
    processed. *)
Theorem first_file_failing_is_fatal :
  let o := main no_flags (Epub Samples.solo_broken []) in
  let o' := main_listing [["lib"; "b.epub"]; ["lib"; "a.epub"]] no_flags
                         (Epub Samples.pair []) in
  raised o = Some UnboundLocalError
  /\ data (final o) = []
  /\ fs (final o) !! ["[failed]"; "b.epub"] = Some Samples.broken
  /\ fs (final o) !! ["epub_metadata.csv"] = None
  /\ raised o' = Some UnboundLocalError
  /\ data (final o') = []
  /\ FS.is_file (fs (final o')) ["lib"; "a.epub"] = true.
Proof. vm_compute. repeat split; reflexivity. Qed.

(** C5 fails on the code: a readable book followed by a file that does not
    decode.  The report row of the failed file has [is_failed] set and
    shows the author, file name, identifier and title of the book read
    before it. *)
Theorem failed_row_shows_previous_metadata :
  let o := main_listing [["lib"; "a.epub"]; ["lib"; "b.epub"]] no_flags
                        (Epub Samples.pair []) in
  raised o = None
  /\ fs (final o) !! ["epub_metadata.csv"]
     = Some (File (Blob
         [["author"; "file"; "identifier"; "is_duplicate"; "is_failed";
           "path"; "title"];
          ["Ann"; "lib/a.epub"; "ISBN-1"; "False"; "False";
           "[processed]/Ann/a.epub"; "First"];
          ["Ann"; "lib/a.epub"; "ISBN-1"; "False"; "True";
           "[processed]/Ann/a.epub"; "First"]])).
Proof. vm_compute. split; reflexivity. Qed.

(** C1 fails on the code: after the Classifier the two entries of the same
    run are consistent, but the grouping step addresses the catalog by
    identifier and the failed entry carries the identifier of the book read
    before it; after the run the failed entry is recorded in the author
    folder of that book while its file sits in the failed folder. *)
Theorem failed_entry_relocated_by_grouping :
  let listing := [["lib"; "a.epub"]; ["lib"; "b.epub"]] in
  let o1 := classifier listing (Epub Samples.pair []) in
  let o := main_listing listing no_flags (Epub Samples.pair []) in
  raised o1 = None
  /\ forallb (location_consistent (final o1)) (data (final o1)) = true
  /\ raised o = None
  /\ (exists m,
        data (final o) !! 1
        = Some (mkEntry false true m ["[processed]"; "Ann"; "a.epub"]))
  /\ fs (final o) !! ["[failed]"; "b.epub"] = Some Samples.broken
  /\ forallb (location_consistent (final o)) (data (final o)) = false.
Proof.
  vm_compute. repeat split; try reflexivity.
  eexists. reflexivity.
Qed.

(** ** The DuplicateResolver, [find_duplicate_by_identifier] *)

(** C2 fails on the code: two copies of one work and, between them, a file
    that does not decode.  The identifier has multiplicity 2 among the
    entries that decoded, yet 3 entries carrying it are marked duplicate and
    recorded in the duplicate folder: the failed entry carries the
    identifier of the book read before it, and its file is moved there
    too. *)
Theorem failed_file_counted_among_duplicates :
  let listing := [["lib"; "a.epub"]; ["lib"; "b.epub"]; ["lib"; "c.epub"]] in
  let o1 := classifier listing (Epub Samples.twins_and_broken []) in
  let o2 := find_duplicate_by_identifier (final o1) in
  raised o1 = None
  /\ raised o2 = None
  /\ PyStr.count "ISBN-1" (identifier_list (final o1)) = 2
  /\ length (processed_of "ISBN-1" (final o1)) = 2
  /\ length (duplicates_of "ISBN-1" (final o2)) = 3
  /\ fs (final o2) !! ["[duplicates]"; "b.epub"] = Some Samples.broken.
Proof. vm_compute. repeat split; reflexivity. Qed.

(** Two copies of one work under the same file name in different folders:
    the second overwrites the first in the processed folder, both entries
    record that one path, and moving the second duplicate finds no file. *)
Lemma same_name_twins_crash :
  let listing := [["l1"; "x.epub"]; ["l2"; "x.epub"]] in
  let o1 := classifier listing (Epub Samples.same_name_twins []) in
  let o2 := find_duplicate_by_identifier (final o1) in
  raised o1 = None
  /\ raised o2 = Some FileNotFoundError
  /\ path <$> data (final o2)
     = [["[duplicates]"; "x.epub"]; ["[processed]"; "x.epub"]]
  /\ is_duplicate <$> data (final o2) = [true; true].
Proof. vm_compute. repeat split; reflexivity. Qed.

(** Without decode failures and name clashes the claim holds on the
    sample: both copies are marked and moved, the first-seen one too. *)
Lemma twins_both_marked :
  let listing := [["lib"; "a.epub"]; ["lib"; "c.epub"]] in
  let o1 := classifier listing (Epub Samples.twins []) in
  let o2 := find_duplicate_by_identifier (final o1) in
  raised o2 = None
  /\ length (processed_of "ISBN-1" (final o1)) = 2
  /\ length (duplicates_of "ISBN-1" (final o2)) = 2
  /\ FS.rglob (fs (final o2)) (processed_folder (final o2))
              Pathlib.matches_epub = [].
Proof. vm_compute. repeat split; reflexivity. Qed.

(** ** A second pass *)

(** A readable file whose parent is not literally one of the three managed
    folders is processed, wherever it lies. *)
Lemma extract_one_not_skipped s epub local md f :
  FS.is_file (fs s) epub = true ->
  Pathlib.parent epub ∉ managed_folders s ->
  FS.get_metadata (fs s) epub = inr md ->
  FS.rename (fs s) epub (processed_folder s // Pathlib.name epub) = inr f ->
  exists s', extract_one local epub s = Return (Some md) s'
    /\ data s' = data s ++ [mkEntry false false md
                                    (processed_folder s // Pathlib.name epub)]
    /\ identifier_list s' = identifier_list s ++ [identifier md]
    /\ fs s' = f.
Proof.
  intros Hfile Hout Hok Hf. unfold extract_one, bind, get. rewrite Hfile.
  rewrite bool_decide_eq_false_2 by exact Hout. simpl. rewrite Hok.
  unfold modify, rename, lift_fs. simpl. rewrite Hf. simpl.
  eexists. split; [reflexivity|]. done.
Qed.

(** C3 fails on the code: after a full run over one readable book the file
    sits in its author's folder below the processed folder.  The guard of
    [extract_metadata] compares only the immediate parent with the three
    managed folders, so a second pass does not skip the file: it is moved
    back to the top of the processed folder and a new entry is recorded. *)
Theorem second_pass_reprocesses_grouped_file :
  let o := main no_flags (Epub Samples.solo []) in
  let o' := (post_init ;; detect_epubs ;; extract_metadata)
              (Epub (fs (final o)) []) in
  raised o = None
  /\ FS.is_file (fs (final o)) ["[processed]"; "Ann"; "a.epub"] = true
  /\ raised o' = None
  /\ epub_list (final o') = [["[processed]"; "Ann"; "a.epub"]]
  /\ path <$> data (final o') = [["[processed]"; "a.epub"]]
  /\ FS.is_file (fs (final o')) ["[processed]"; "Ann"; "a.epub"] = false
  /\ FS.is_file (fs (final o')) ["[processed]"; "a.epub"] = true.
Proof. vm_compute. repeat split; reflexivity. Qed.

(** ** Removing empty folders *)

(** Sorting neither adds nor drops an element. *)
Lemma sorted_elem_of {A} (leb : A -> A -> bool) (x : A) (l : list A) :
  x ∈ PyStr.sorted leb l <-> x ∈ l.
Proof.
  unfold PyStr.sorted. induction l as [|y l IH]; simpl; [done|].
  assert (Hins : forall z acc, x ∈ PyStr.insert_sorted leb z acc
                               <-> x = z \/ x ∈ acc).
  { intros z acc. induction acc as [|w acc IHa]; simpl.
    - rewrite list_elem_of_singleton. split; [by left | intros [?|H]; [done|]].
      by apply not_elem_of_nil in H.
    - destruct (leb z w).
      + by rewrite elem_of_cons.
      + rewrite !elem_of_cons, IHa. tauto. }
  rewrite Hins, IH, elem_of_cons. tauto.
Qed.

(** Removing the folders of [l] leaves every other path as it is. *)
Lemma rmdir_loop_keeps (p : Path) : forall (l : list Path) s,
  p ∉ l -> fs (final (for_each l rmdir s)) !! p = fs s !! p.
Proof.
  induction l as [|q l IH]; intros s Hp; [done|].
  apply not_elem_of_cons in Hp as [Hne Hp].
  simpl. unfold bind at 1, rmdir at 1, lift_fs, FS.rmdir.
  destruct (fs s !! q) as [[|c]|]; try done.
  destruct (FS.iterdir (fs s) q); [|done].
  rewrite IH by done. simpl. by apply lookup_delete_ne.
Qed.

(** A folder that holds something when the pass starts is not among the
    folders the pass removes, whatever happens to its content. *)
Lemma non_empty_folder_survives s (p : Path) :
  FS.iterdir (fs s) p <> [] ->
  fs (final (remove_empty_folder s)) !! p = fs s !! p.
Proof.
  intros Hne. unfold remove_empty_folder, bind, find_empty_folders, get, ret.
  apply rmdir_loop_keeps. rewrite sorted_elem_of.
  intros Hin. apply list_elem_of_filter in Hin as [[_ Hempty] _]. done.
Qed.

(** C8 fails on the code: a book in [lib/sub].  The empty folders are
    listed once, before any removal; [lib] then still holds [sub] and is not
    listed.  After the run [lib/sub] is gone and [lib] remains, empty. *)
Theorem emptied_parent_survives :
  let o := main no_flags (Epub Samples.nested []) in
  raised o = None
  /\ fs (final o) !! ["lib"; "sub"] = None
  /\ fs (final o) !! ["lib"] = Some Dir
  /\ FS.iterdir (fs (final o)) ["lib"] = [].
Proof. vm_compute. repeat split; reflexivity. Qed.

(** * Further properties of the methods *)

(** ** More on [update_data] *)

Lemma state_ext (s s' : State) :
  fs s' = fs s -> data s' = data s -> same_self s s' -> s' = s.
Proof.
  destruct s, s'. unfold same_self. simpl.
  intros -> -> (-> & -> & -> & -> & -> & -> & -> & -> & ->). reflexivity.
Qed.

Lemma map_updated_none ident md new_path (l : list entry) :
  Forall (fun d => carries ident d = false) l ->
  map (updated ident md new_path) l = l.
Proof.
  induction 1 as [|d l Hd _ IH]; simpl; [done|].
  by rewrite IH, updated_untouched.
Qed.

Lemma written_none ident md (l : list entry) f :
  Forall (fun d => carries ident d = false) l -> written ident md l f = f.
Proof.
  intros H. unfold written. destruct md as [m|]; [|done]. revert f.
  induction H as [|d l Hd _ IH]; intros f; simpl; [done|].
  by rewrite Hd, IH.
Qed.

(** X1: an update addressed to an identifier that no entry carries changes
    nothing: it returns, and the catalog, the files and every field of
    [self] are as before, whatever metadata or path was supplied. *)
Theorem update_data_unknown_identifier ident md new_path s :
  Forall (fun d => carries ident d = false) (data s) ->
  update_data ident md new_path s = Return tt s.
Proof.
  intros Hnone. unfold update_data, bind, get.
  destruct (update_loop_returns ident md new_path (data s) [] s eq_refl)
    as (s' & Hrun & Hd & Hf & Hs).
  { intros m d _ Hin Hc. rewrite Forall_forall in Hnone.
    specialize (Hnone d Hin). congruence. }
  simpl in Hrun, Hd. rewrite Hrun. f_equal. apply state_ext; [| |done].
  - by rewrite Hf, written_none.
  - by rewrite Hd, map_updated_none.
Qed.

Lemma update_data_unknown_identifier_witness :
  let s := final (classifier [["lib"; "a.epub"]; ["lib"; "c.epub"]]
                             (Epub Samples.twins [])) in
  let m := mkMetadata "ISBN-9" "Other" ["Zed"] "" in
  Forall (fun d => carries "ISBN-9" d = false) (data s)
  /\ update_data "ISBN-9" (Some m) (Some ["elsewhere"]) s = Return tt s.
Proof.
  assert (H : Forall (fun d => carries "ISBN-9" d = false)
                (data (final (classifier [["lib"; "a.epub"]; ["lib"; "c.epub"]]
                                         (Epub Samples.twins []))))).
  { vm_compute. repeat constructor. }
  split; [exact H|]. by apply update_data_unknown_identifier.
Defined.

Lemma state_ext2 (s s1 s2 : State) :
  fs s1 = fs s2 -> data s1 = data s2 -> same_self s s1 -> same_self s s2 ->
  s1 = s2.
Proof.
  destruct s, s1, s2. unfold same_self. simpl.
  intros -> -> (-> & -> & -> & -> & -> & -> & -> & -> & ->)
               (-> & -> & -> & -> & -> & -> & -> & -> & ->).
  reflexivity.
Qed.

Lemma update_data_path_map ident p s :
  exists s',
    update_data ident None (Some p) s = Return tt s'
    /\ fs s' = fs s
    /\ data s' = map (updated ident None (Some p)) (data s)
    /\ same_self s s'.
Proof.
  unfold update_data, bind, get.
  destruct (update_loop_returns ident None (Some p) (data s) [] s eq_refl)
    as (s' & Hrun & Hd & Hf & Hs); [intros; discriminate|].
  exists s'. simpl in Hrun, Hd. done.
Qed.

(** X2: an update that supplies only a path cannot fail: it returns for
    every state and touches no file; the catalog keeps its length and
    order, every entry that carries the identifier keeps its flags and its
    metadata and is recorded at the supplied path, and every other entry is
    unchanged. *)
Theorem update_data_path_only ident p s :
  exists s',
    update_data ident None (Some p) s = Return tt s'
    /\ fs s' = fs s
    /\ length (data s') = length (data s)
    /\ (forall i d, data s !! i = Some d ->
          data s' !! i
          = Some (if carries ident d
                  then {| is_duplicate := is_duplicate d;
                          is_failed := is_failed d;
                          metadata := metadata d;
                          path := p |}
                  else d))
    /\ same_self s s'.
Proof.
  destruct (update_data_path_map ident p s) as (s' & Hrun & Hf & Hd & Hs).
  exists s'. split; [exact Hrun|]. split; [exact Hf|].
  split; [by rewrite Hd, length_map|]. split; [|exact Hs].
  intros i d Hi. rewrite Hd, list_lookup_fmap, Hi. simpl.
  by rewrite updated_fields.
Qed.

(** X3: two path-only updates for the same identifier compose to the
    second one: the last path wins. *)
Theorem update_data_path_twice ident p q s :
  (update_data ident None (Some p) ;; update_data ident None (Some q)) s
  = update_data ident None (Some q) s.
Proof.
  unfold bind at 1.
  destruct (update_data_path_map ident p s) as (s1 & H1 & Hf1 & Hd1 & Hs1).
  destruct (update_data_path_map ident q s) as (s2 & H2 & Hf2 & Hd2 & Hs2).
  destruct (update_data_path_map ident q s1) as (s3 & H3 & Hf3 & Hd3 & Hs3).
  rewrite H1, H2, H3. f_equal.
  apply (state_ext2 s s3 s2);
    [congruence| |exact (same_self_trans s s1 s3 Hs1 Hs3)|exact Hs2].
  rewrite Hd3, Hd1, Hd2, map_map. apply map_ext. intros d.
  unfold updated, carries.
  destruct (ident =? identifier (metadata d))%string eqn:E; simpl; [|by rewrite E].
  by rewrite E.
Qed.

(** ** More on [find_duplicate_by_identifier] *)

Lemma count_absent x (l : list string) : x ∉ l -> PyStr.count x l = 0.
Proof.
  unfold PyStr.count. induction l as [|y l IH]; intros Hx; [done|].
  apply not_elem_of_cons in Hx as [Hne Hx].
  rewrite filter_cons_False by congruence. by apply IH.
Qed.

Lemma count_nodup x (l : list string) : NoDup l -> PyStr.count x l <= 1.
Proof.
  induction 1 as [|y l Hy _ IH]; [unfold PyStr.count; simpl; lia|].
  unfold PyStr.count in *. destruct (decide (y = x)) as [->|Hne].
  - rewrite filter_cons_True by done. simpl.
    pose proof (count_absent x l Hy) as H0. unfold PyStr.count in H0. lia.
  - by rewrite filter_cons_False.
Qed.

(** X4: when no identifier occurs twice among the files that decoded, the
    duplicate pass does nothing: it returns the state it was given, no file
    is moved and no entry is flagged. *)
Theorem find_duplicate_no_collision s :
  NoDup (identifier_list s) ->
  find_duplicate_by_identifier s = Return tt s.
Proof.
  intros H. unfold find_duplicate_by_identifier, bind, get.
  assert (E : forall l,
             flat_map (fun ident =>
                         if (1 <? PyStr.count ident (identifier_list s))%nat
                         then refs_with_identifier (data s) ident else []) l
             = []).
  { induction l as [|x l IH]; simpl; [done|].
    assert (Hc : (1 <? PyStr.count x (identifier_list s))%nat = false).
    { apply Nat.ltb_ge. by apply count_nodup. }
    by rewrite Hc, IH. }
  unfold duplicate_list. by rewrite E.
Qed.

Lemma find_duplicate_no_collision_witness :
  let s := final (classifier [["lib"; "a.epub"]; ["lib"; "b.epub"]]
                             (Epub Samples.pair [])) in
  NoDup (identifier_list s)
  /\ find_duplicate_by_identifier s = Return tt s.
Proof.
  assert (H : NoDup (identifier_list
                       (final (classifier [["lib"; "a.epub"]; ["lib"; "b.epub"]]
                                          (Epub Samples.pair []))))).
  { vm_compute. apply NoDup_singleton. }
  split; [exact H|]. by apply find_duplicate_no_collision.
Defined.

(** *** What one round of the loop does to the catalog *)

Lemma flagged_from_refl d : flagged_from d d.
Proof. by repeat split. Qed.

Lemma flagged_from_trans d1 d2 d3 :
  flagged_from d1 d2 -> flagged_from d2 d3 -> flagged_from d1 d3.
Proof. unfold flagged_from. intuition congruence. Qed.

Lemma Forall2_flagged_refl (l : list entry) : Forall2 flagged_from l l.
Proof. induction l; constructor; [apply flagged_from_refl | done]. Qed.

Lemma Forall2_flagged_trans (l1 l2 l3 : list entry) :
  Forall2 flagged_from l1 l2 -> Forall2 flagged_from l2 l3 ->
  Forall2 flagged_from l1 l3.
Proof.
  intros H. revert l3. induction H as [|d1 d2 l1 l2 Hd _ IH]; intros l3 H23.
  - by inversion H23.
  - inversion H23; subst. constructor; [by eapply flagged_from_trans | by apply IH].
Qed.

Lemma Forall2_flagged_alter (f : entry -> entry) i (l : list entry) :
  (forall d, flagged_from d (f d)) -> Forall2 flagged_from l (alter f i l).
Proof.
  intros Hf. revert i. induction l as [|d l IH]; intros i; [constructor|].
  destruct i as [|i]; simpl; constructor.
  - apply Hf.
  - apply Forall2_flagged_refl.
  - apply flagged_from_refl.
  - apply IH.
Qed.

(** In either outcome one round leaves every other dict alone, keeps the
    metadata and the failed flag of its own dict, and changes no field of
    [self] but [data]. *)
Lemma move_duplicate_effect i s :
  let s' := final (move_duplicate i s) in
  same_self s s'
  /\ Forall2 flagged_from (data s) (data s')
  /\ (forall j, j <> i -> data s' !! j = data s !! j).
Proof.
  unfold move_duplicate, bind, assign, modify, deref, get, rename, lift_fs.
  simpl.
  assert (H1 : Forall2 flagged_from (data s)
                 (alter (set_is_duplicate true) i (data s))).
  { apply Forall2_flagged_alter. intros d. by repeat split. }
  destruct (alter (set_is_duplicate true) i (data s) !! i) as [d|] eqn:Hd;
    simpl.
  - destruct (FS.rename (fs s) (path d)
                (duplicate_folder s // Pathlib.name (path d))) as [e|f];
      simpl.
    + split; [by repeat split|]. split; [exact H1|].
      intros j Hj. by apply list_lookup_alter_ne.
    + split; [by repeat split|]. split.
      * eapply Forall2_flagged_trans; [exact H1|].
        apply Forall2_flagged_alter. intros d0. by repeat split.
      * intros j Hj. by rewrite !list_lookup_alter_ne.
  - split; [by repeat split|]. split; [exact H1|].
    intros j Hj. by apply list_lookup_alter_ne.
Qed.

Lemma final_bind {A B} (m : M A) (k : A -> M B) s :
  final (bind m k s)
  = match m s with
    | Return a s1 => final (k a s1)
    | Raise _ s1 => s1
    end.
Proof. unfold bind. by destruct (m s). Qed.

Lemma move_loop_effect (dl : list nat) : forall s,
  let s' := final (for_each dl move_duplicate s) in
  same_self s s'
  /\ Forall2 flagged_from (data s) (data s')
  /\ (forall j, j ∉ dl -> data s' !! j = data s !! j).
Proof.
  induction dl as [|i dl IH]; intros s; simpl.
  - split; [apply same_self_refl|]. split; [apply Forall2_flagged_refl|done].
  - rewrite final_bind.
    pose proof (move_duplicate_effect i s) as (Hs & Hf & Hj). simpl in *.
    destruct (move_duplicate i s) as [[] s1|e s1]; simpl in *.
    + destruct (IH s1) as (Hs' & Hf' & Hj').
      split; [by eapply same_self_trans|].
      split; [by eapply Forall2_flagged_trans|].
      intros j Hn. apply not_elem_of_cons in Hn as [Hne Hn].
      by rewrite Hj', Hj.
    + split; [done|]. split; [done|].
      intros j Hn. apply not_elem_of_cons in Hn as [Hne Hn]. by apply Hj.
Qed.

(** The references collected by the pass are exactly the dicts whose
    identifier collides. *)
Lemma elem_of_duplicate_list s i :
  i ∈ duplicate_list s
  <-> exists d, data s !! i = Some d /\ collides s d = true.
Proof.
  unfold duplicate_list, collides. rewrite list_elem_of_In, in_flat_map.
  split.
  - intros (ident & Hin & Hi).
    destruct (1 <? PyStr.count ident (identifier_list s))%nat eqn:Hc;
      [|by destruct Hi].
    unfold refs_with_identifier in Hi. apply filter_In in Hi as [_ Hi].
    destruct (data s !! i) as [d|]; [|done].
    apply String.eqb_eq in Hi. exists d. by rewrite Hi.
  - intros (d & Hd & Hc). exists (identifier (metadata d)).
    assert (Hin : identifier (metadata d) ∈ identifier_list s).
    { destruct (decide (identifier (metadata d) ∈ identifier_list s)) as [|Hn];
        [done|].
      apply count_absent in Hn. rewrite Hn in Hc. discriminate. }
    split; [by apply list_elem_of_In|]. rewrite Hc.
    unfold refs_with_identifier. apply filter_In. split.
    + apply in_seq. apply lookup_lt_Some in Hd. lia.
    + rewrite Hd. apply String.eqb_refl.
Qed.

(** X5: whether the duplicate pass returns or is stopped by a failed
    rename, the catalog keeps its length and order; every entry keeps its
    metadata and its failed flag, and a duplicate flag that was set stays
    set; an entry whose identifier does not collide is not changed at all;
    no other field of [self] changes. *)
Theorem find_duplicate_preserves s :
  let s' := final (find_duplicate_by_identifier s) in
  length (data s') = length (data s)
  /\ (forall i d, data s !! i = Some d ->
        exists d', data s' !! i = Some d'
          /\ metadata d' = metadata d
          /\ is_failed d' = is_failed d
          /\ (is_duplicate d = true -> is_duplicate d' = true)
          /\ (collides s d = false -> d' = d))
  /\ same_self s s'.
Proof.
  assert (E : final (find_duplicate_by_identifier s)
              = final (for_each (duplicate_list s) move_duplicate s)).
  { unfold find_duplicate_by_identifier, bind, get.
    by destruct (duplicate_list s). }
  simpl. rewrite E.
  pose proof (move_loop_effect (duplicate_list s) s) as (Hs & Hf & Hj).
  simpl in *. split; [symmetry; by eapply Forall2_length|]. split; [|done].
  intros i d Hd.
  destruct (Forall2_lookup_l _ _ _ _ _ Hf Hd) as (d' & Hd' & Hm & Hfl & Hdup).
  exists d'. repeat (split; [done|]).
  intros Hc. assert (Hn : i ∉ duplicate_list s).
  { rewrite elem_of_duplicate_list. intros (d0 & Hd0 & Hc0). congruence. }
  rewrite (Hj i Hn), Hd in Hd'. congruence.
Qed.

Lemma marked_twice dup d :
  simple_name (Pathlib.name (path d)) -> marked dup (marked dup d) = marked dup d.
Proof. intros H. unfold marked. simpl. by rewrite name_div. Qed.

Lemma marked_simple dup d :
  simple_name (Pathlib.name (path d)) ->
  simple_name (Pathlib.name (path (marked dup d))).
Proof. intros H. unfold marked. simpl. by rewrite name_div. Qed.

(** A round that returns has replaced its dict by [marked]. *)
Lemma move_duplicate_returns i s s' :
  move_duplicate i s = Return tt s' ->
  data s' = alter (marked (duplicate_folder s)) i (data s)
  /\ duplicate_folder s' = duplicate_folder s.
Proof.
  unfold move_duplicate, bind, assign, modify, deref, get, rename, lift_fs.
  simpl. rewrite list_lookup_alter_eq.
  destruct (data s !! i) as [d|] eqn:Hd; simpl; [|discriminate].
  destruct (FS.rename (fs s) (path d)
              (duplicate_folder s // Pathlib.name (path d))) as [e|f];
    [discriminate|].
  intros H. inversion H; subst; clear H. simpl. split; [|done].
  rewrite list_alter_alter_eq. apply list_eq. intros j.
  rewrite !list_lookup_alter. destruct (decide (i = j)); [|done].
  by rewrite Hd.
Qed.

Lemma move_loop_marks dup (dl : list nat) : forall s s',
  duplicate_folder s = dup ->
  Forall (fun d => simple_name (Pathlib.name (path d))) (data s) ->
  for_each dl move_duplicate s = Return tt s' ->
  forall j, data s' !! j
            = if decide (j ∈ dl) then marked dup <$> data s !! j
              else data s !! j.
Proof.
  induction dl as [|i dl IH]; intros s s' Hdup Hsimple Hrun j.
  - inversion Hrun; subst. by rewrite decide_False by apply not_elem_of_nil.
  - simpl in Hrun. unfold bind at 1 in Hrun.
    destruct (move_duplicate i s) as [[] s1|e s1] eqn:H1; [|discriminate].
    apply move_duplicate_returns in H1 as [Hd1 Hdup1]. rewrite Hdup in *.
    assert (Hsimple1 : Forall (fun d => simple_name (Pathlib.name (path d)))
                              (data s1)).
    { rewrite Hd1. apply Forall_alter; [done|].
      intros d _ Hd. by apply marked_simple. }
    rewrite (IH s1 s' Hdup1 Hsimple1 Hrun j), Hd1, list_lookup_alter.
    destruct (decide (i = j)) as [->|Hne].
    + destruct (decide (j ∈ j :: dl)) as [_|Hn];
        [|exfalso; apply Hn, list_elem_of_here].
      destruct (decide (j ∈ dl)); [|done].
      destruct (data s !! j) as [d|] eqn:Hd; [|done]. simpl.
      rewrite marked_twice; [done|].
      rewrite Forall_forall in Hsimple. apply Hsimple.
      by eapply list_elem_of_lookup_2.
    + destruct (decide (j ∈ dl)) as [Hin|Hn];
        destruct (decide (j ∈ i :: dl)) as [Hin'|Hn']; try done.
      * exfalso. by apply Hn', list_elem_of_further.
      * apply elem_of_cons in Hin' as [->|Hin']; done.
Qed.

(** X6: when the duplicate pass returns on a catalog whose recorded paths
    end in plain names, the catalog is the old one with every entry whose
    identifier collides replaced by [marked]: flagged duplicate and recorded
    in the duplicate folder under its own file name, the first-seen entry
    like the later ones; every other entry is as before. *)
Theorem find_duplicate_marks_every_collision s s' :
  Forall (fun d => simple_name (Pathlib.name (path d))) (data s) ->
  find_duplicate_by_identifier s = Return tt s' ->
  data s' = map (fun d => if collides s d
                          then marked (duplicate_folder s) d else d)
                (data s).
Proof.
  intros Hsimple Hrun.
  assert (E : for_each (duplicate_list s) move_duplicate s = Return tt s').
  { revert Hrun. unfold find_duplicate_by_identifier, bind, get.
    by destruct (duplicate_list s). }
  apply list_eq. intros j.
  rewrite (move_loop_marks _ _ _ _ eq_refl Hsimple E j), list_lookup_fmap.
  destruct (data s !! j) as [d|] eqn:Hd; simpl.
  - destruct (collides s d) eqn:Hc.
    + rewrite decide_True; [done|]. apply elem_of_duplicate_list. eauto.
    + rewrite decide_False; [done|]. rewrite elem_of_duplicate_list.
      intros (d0 & Hd0 & Hc0). congruence.
  - by destruct (decide (j ∈ duplicate_list s)).
Qed.

Lemma find_duplicate_marks_every_collision_witness :
  let s := final (classifier [["lib"; "a.epub"]; ["lib"; "c.epub"]]
                             (Epub Samples.twins [])) in
  let s' := final (find_duplicate_by_identifier s) in
  Forall (fun d => simple_name (Pathlib.name (path d))) (data s)
  /\ find_duplicate_by_identifier s = Return tt s'
  /\ data s' = map (fun d => if collides s d
                             then marked (duplicate_folder s) d else d)
                   (data s).
Proof.
  assert (H1 : Forall (fun d => simple_name (Pathlib.name (path d)))
                 (data (final (classifier [["lib"; "a.epub"]; ["lib"; "c.epub"]]
                                          (Epub Samples.twins []))))).
  { vm_compute. repeat (constructor; [split; [reflexivity|discriminate]|]).
    constructor. }
  assert (H2 : find_duplicate_by_identifier
                 (final (classifier [["lib"; "a.epub"]; ["lib"; "c.epub"]]
                                    (Epub Samples.twins [])))
               = Return tt
                   (final (find_duplicate_by_identifier
                     (final (classifier [["lib"; "a.epub"]; ["lib"; "c.epub"]]
                                        (Epub Samples.twins [])))))).
  { vm_compute. reflexivity. }
  split; [exact H1|]. split; [exact H2|].
  exact (find_duplicate_marks_every_collision _ _ H1 H2).
Defined.

(** ** More on [extract_metadata] *)

Lemma same_folders_refl s : same_folders s s.
Proof. by repeat split. Qed.

Lemma same_folders_trans s1 s2 s3 :
  same_folders s1 s2 -> same_folders s2 s3 -> same_folders s1 s3.
Proof. unfold same_folders. intuition congruence. Qed.

Lemma extract_one_skip local p s :
  FS.is_file (fs s) p = false \/ Pathlib.parent p ∈ managed_folders s ->
  extract_one local p s = Return local s.
Proof.
  intros H. unfold extract_one, bind, get.
  destruct (FS.is_file (fs s) p) eqn:Hf; [|done].
  destruct H as [H|H]; [discriminate|].
  by rewrite bool_decide_eq_true_2.
Qed.

(** What one round that returns has recorded. *)
Lemma extract_one_returns local p s local' s' :
  extract_one local p s = Return local' s' ->
  exists new,
    data s' = data s ++ new
    /\ identifier_list s' = identifier_list s ++ decoded_identifiers new
    /\ Forall (recorded_for s p) new
    /\ chained local new
    /\ local' = local_after local new
    /\ length new <= 1
    /\ same_folders s s'.
Proof.
  unfold extract_one, bind, get.
  destruct (FS.is_file (fs s) p
            && negb (bool_decide (Pathlib.parent p ∈ managed_folders s))).
  - destruct (FS.get_metadata (fs s) p) as [e|md].
    + unfold rename, lift_fs.
      destruct (FS.rename (fs s) p (failed_folder s // Pathlib.name p))
        as [e'|f]; [discriminate|].
      destruct local as [md|]; [|discriminate].
      intros H. inversion H; subst; clear H. simpl.
      exists [mkEntry false true md (failed_folder s // Pathlib.name p)].
      split; [done|]. split; [by rewrite app_nil_r|].
      split; [by repeat constructor|]. split; [by split|].
      split; [done|]. split; [simpl; lia | by repeat split].
    + unfold modify, rename, lift_fs. simpl.
      destruct (FS.rename (fs s) p (processed_folder s // Pathlib.name p))
        as [e'|f]; [discriminate|].
      intros H. inversion H; subst; clear H. simpl.
      exists [mkEntry false false md (processed_folder s // Pathlib.name p)].
      split; [done|]. split; [done|].
      split; [by repeat constructor|]. split; [by split|].
      split; [done|]. split; [simpl; lia | by repeat split].
  - intros H. inversion H; subst; clear H. exists [].
    rewrite !app_nil_r. split; [done|]. split; [done|].
    split; [constructor|]. split; [done|]. split; [done|].
    split; [simpl; lia | apply same_folders_refl].
Qed.

Lemma local_after_cons local d new :
  local_after local (d :: new) = local_after (Some (metadata d)) new.
Proof.
  unfold local_after. destruct new as [|d1 new]; [done|].
  change (last (d :: d1 :: new)) with (last (d1 :: new)).
  destruct (last (d1 :: new)) eqn:E; [done|].
  by apply last_None in E.
Qed.

Lemma chained_app local new1 new2 :
  chained local new1 -> chained (local_after local new1) new2 ->
  chained local (new1 ++ new2).
Proof.
  revert local. induction new1 as [|d new1 IH]; intros local H1 H2; [done|].
  destruct H1 as [Hd H1]. split; [done|]. apply IH; [done|].
  by rewrite <- (local_after_cons local).
Qed.

Lemma decoded_identifiers_app new1 new2 :
  decoded_identifiers (new1 ++ new2)
  = decoded_identifiers new1 ++ decoded_identifiers new2.
Proof. unfold decoded_identifiers. by rewrite List.filter_app, map_app. Qed.

Lemma recorded_for_folders s s1 p d :
  same_folders s s1 -> recorded_for s1 p d -> recorded_for s p d.
Proof.
  intros (_ & Hf & Hp & _) [H1 H2]. split; [done|]. by rewrite <- Hf, <- Hp.
Qed.

Lemma extract_loop_returns (l : list Path) : forall local s local' s',
  for_each_with l local extract_one s = Return local' s' ->
  exists new,
    data s' = data s ++ new
    /\ identifier_list s' = identifier_list s ++ decoded_identifiers new
    /\ Forall (fun d => exists p, p ∈ l /\ recorded_for s p d) new
    /\ chained local new
    /\ length new <= length l
    /\ same_folders s s'.
Proof.
  induction l as [|p l IH]; intros local s local' s' Hrun.
  - inversion Hrun; subst. exists []. rewrite !app_nil_r.
    split; [done|]. split; [done|]. split; [constructor|]. split; [done|].
    split; [simpl; lia | apply same_folders_refl].
  - simpl in Hrun. unfold bind at 1 in Hrun.
    destruct (extract_one local p s) as [local1 s1|e s1] eqn:H1; [|discriminate].
    apply extract_one_returns in H1
      as (new1 & Hd1 & Hi1 & Hr1 & Hc1 & -> & Hl1 & Hs1).
    apply IH in Hrun as (new2 & Hd2 & Hi2 & Hr2 & Hc2 & Hl2 & Hs2).
    exists (new1 ++ new2).
    split; [by rewrite Hd2, Hd1, app_assoc|].
    split; [by rewrite Hi2, Hi1, decoded_identifiers_app, app_assoc|].
    split.
    { apply Forall_app. split.
      - eapply Forall_impl; [exact Hr1|]. intros d Hd. exists p.
        split; [apply list_elem_of_here | done].
      - eapply Forall_impl; [exact Hr2|]. intros d (q & Hq & Hd). exists q.
        split; [by apply list_elem_of_further|].
        by eapply recorded_for_folders. }
    split; [by apply chained_app|].
    split; [rewrite length_app; simpl; lia|].
    by eapply same_folders_trans.
Qed.

Lemma chained_lookup local new : forall k d,
  chained local new -> new !! k = Some d -> is_failed d = true ->
  match k with
  | 0 => local = Some (metadata d)
  | S k' => exists d0, new !! k' = Some d0 /\ metadata d0 = metadata d
  end.
Proof.
  revert local. induction new as [|d0 new IH]; intros local k d Hc Hk Hf;
    [done|].
  destruct Hc as [H0 Hc]. destruct k as [|k]; simpl in Hk.
  - inversion Hk; subst. by apply H0.
  - specialize (IH _ k d Hc Hk Hf). destruct k as [|k].
    + exists d0. split; [done|]. congruence.
    + destruct IH as (d1 & Hd1 & Hm). by exists d1.
Qed.

Lemma extract_loop_skips (l : list Path) local s :
  forallb (fun p => negb (FS.is_file (fs s) p)
                    || bool_decide (Pathlib.parent p ∈ managed_folders s)) l
  = true ->
  for_each_with l local extract_one s = Return local s.
Proof.
  induction l as [|p l IH]; simpl; [done|].
  intros H. apply andb_prop in H as [Hp Hl]. unfold bind.
  rewrite extract_one_skip; [by apply IH|].
  apply orb_prop in Hp as [Hp|Hp].
  - left. by apply negb_true_iff.
  - right. by apply bool_decide_eq_true in Hp.
Qed.

(** X7: a pass over a listing in which every path is either not a regular
    file or lies directly in one of the three managed folders changes
    nothing: no file is read or moved, no entry recorded. *)
Theorem extract_metadata_skips_managed s :
  forallb (fun p => negb (FS.is_file (fs s) p)
                    || bool_decide (Pathlib.parent p ∈ managed_folders s))
          (epub_list s) = true ->
  extract_metadata s = Return tt s.
Proof.
  intros H. unfold extract_metadata, bind, get.
  by rewrite extract_loop_skips.
Qed.

Lemma extract_metadata_skips_managed_witness :
  let s1 := final (classifier [["lib"; "a.epub"]; ["lib"; "b.epub"]]
                              (Epub Samples.pair [])) in
  let s := final ((post_init ;; detect_epubs) (Epub (fs s1) [])) in
  forallb (fun p => negb (FS.is_file (fs s) p)
                    || bool_decide (Pathlib.parent p ∈ managed_folders s))
          (epub_list s) = true
  /\ length (epub_list s) = 2
  /\ extract_metadata s = Return tt s.
Proof.
  split; [vm_compute; reflexivity|]. split; [vm_compute; reflexivity|].
  apply extract_metadata_skips_managed. vm_compute. reflexivity.
Defined.

(** X8: when [extract_metadata] returns, the catalog is the old one followed
    by at most one new entry per listed path, in listing order.  Each new
    entry is not flagged duplicate and is recorded in the failed folder or
    the processed folder, according to its failed flag, under the name of a
    listed file; [identifier_list] has grown by exactly the identifiers of
    the new entries that are not failed, in order. *)
Theorem extract_metadata_records s s' :
  extract_metadata s = Return tt s' ->
  exists new,
    data s' = data s ++ new
    /\ length new <= length (epub_list s)
    /\ identifier_list s' = identifier_list s ++ decoded_identifiers new
    /\ Forall (fun d =>
         is_duplicate d = false
         /\ exists p, p ∈ epub_list s
              /\ path d = (if is_failed d then failed_folder s
                           else processed_folder s) // Pathlib.name p) new.
Proof.
  unfold extract_metadata, bind, get.
  destruct (for_each_with (epub_list s) None extract_one s)
    as [local' s1|e s1] eqn:Hrun; [|discriminate].
  intros H. inversion H; subst; clear H.
  apply extract_loop_returns in Hrun as (new & Hd & Hi & Hr & _ & Hl & _).
  exists new. repeat (split; [done|]).
  eapply Forall_impl; [exact Hr|]. intros d (p & Hp & Hd1 & Hd2). eauto.
Qed.

Lemma extract_metadata_records_witness :
  let s := final (discovered [["lib"; "a.epub"]; ["lib"; "b.epub"]]
                             (Epub Samples.pair [])) in
  let s' := final (extract_metadata s) in
  extract_metadata s = Return tt s'
  /\ exists new,
      data s' = data s ++ new
      /\ length new <= length (epub_list s)
      /\ identifier_list s' = identifier_list s ++ decoded_identifiers new
      /\ Forall (fun d =>
           is_duplicate d = false
           /\ exists p, p ∈ epub_list s
                /\ path d = (if is_failed d then failed_folder s
                             else processed_folder s) // Pathlib.name p) new.
Proof.
  assert (H : extract_metadata
                (final (discovered [["lib"; "a.epub"]; ["lib"; "b.epub"]]
                                   (Epub Samples.pair [])))
              = Return tt
                  (final (extract_metadata
                    (final (discovered [["lib"; "a.epub"]; ["lib"; "b.epub"]]
                                       (Epub Samples.pair [])))))).
  { vm_compute. reflexivity. }
  split; [exact H|]. exact (extract_metadata_records _ _ H).
Defined.

(** X9: among the entries one returning pass records, a failed entry never
    comes first, and its metadata is that of the entry recorded just before
    it: the local variable [metadata] of the loop is assigned only when a
    file decodes. *)
Theorem failed_entry_copies_previous s s' new :
  extract_metadata s = Return tt s' ->
  data s' = data s ++ new ->
  forall k d, new !! k = Some d -> is_failed d = true ->
    exists k' d0, k = S k' /\ new !! k' = Some d0
                  /\ metadata d = metadata d0.
Proof.
  unfold extract_metadata, bind, get.
  destruct (for_each_with (epub_list s) None extract_one s)
    as [local' s1|e s1] eqn:Hrun; [|discriminate].
  intros H Hnew. inversion H; subst; clear H.
  apply extract_loop_returns in Hrun as (new' & Hd & _ & _ & Hc & _).
  rewrite Hd in Hnew. apply app_inv_head in Hnew. subst new'.
  intros k d Hk Hf. pose proof (chained_lookup None new k d Hc Hk Hf) as H.
  destruct k as [|k]; [discriminate|].
  destruct H as (d0 & Hd0 & Hm). by exists k, d0.
Qed.

Lemma failed_entry_copies_previous_witness :
  let s := final (discovered [["lib"; "a.epub"]; ["lib"; "b.epub"]]
                             (Epub Samples.pair [])) in
  let s' := final (extract_metadata s) in
  let m := mkMetadata "ISBN-1" "First" ["Ann"] "lib/a.epub" in
  let d := mkEntry false true m ["[failed]"; "b.epub"] in
  let new := [mkEntry false false m ["[processed]"; "a.epub"]; d] in
  extract_metadata s = Return tt s'
  /\ data s' = data s ++ new
  /\ new !! 1 = Some d
  /\ is_failed d = true
  /\ exists k' d0, 1 = S k' /\ new !! k' = Some d0
                   /\ metadata d = metadata d0.
Proof.
  assert (H : extract_metadata
                (final (discovered [["lib"; "a.epub"]; ["lib"; "b.epub"]]
                                   (Epub Samples.pair [])))
              = Return tt
                  (final (extract_metadata
                    (final (discovered [["lib"; "a.epub"]; ["lib"; "b.epub"]]
                                       (Epub Samples.pair [])))))).
  { vm_compute. reflexivity. }
  split; [exact H|]. split; [vm_compute; reflexivity|].
  split; [reflexivity|]. split; [reflexivity|].
  eapply (failed_entry_copies_previous _ _ _ H); [vm_compute|..]; reflexivity.
Defined.

(** ** More on [remove_empty_folder] and [get_summary] *)

Lemma map_is_fmap {A B} (g : A -> B) (l : list A) : map g l = g <$> l.
Proof. induction l as [|x l IH]; simpl; [done | by rewrite IH]. Qed.

Lemma elem_of_paths (f : gmap Path node) (p : Path) :
  p ∈ map fst (map_to_list f) <-> is_Some (f !! p).
Proof.
  rewrite map_is_fmap, list_elem_of_fmap. split.
  - intros ([q v] & -> & Hin). apply elem_of_map_to_list in Hin. by exists v.
  - intros [v Hv]. exists (p, v). split; [done|].
    by apply elem_of_map_to_list.
Qed.

Lemma elem_of_iterdir (f : gmap Path node) (p x : Path) :
  x ∈ FS.iterdir f p <-> x <> p /\ Pathlib.parent x = p /\ is_Some (f !! x).
Proof.
  unfold FS.iterdir. rewrite list_elem_of_filter, elem_of_paths. tauto.
Qed.

Lemma iterdir_delete_empty (f : gmap Path node) (p q : Path) :
  FS.iterdir f p = [] -> FS.iterdir (delete q f) p = [].
Proof.
  intros He. apply elem_of_nil_inv. intros x Hx.
  apply elem_of_iterdir in Hx as (Hne & Hp & [v Hv]).
  assert (Hin : x ∈ FS.iterdir f p).
  { apply elem_of_iterdir. repeat (split; [done|]).
    exists v. apply lookup_delete_Some in Hv. tauto. }
  rewrite He in Hin. by apply not_elem_of_nil in Hin.
Qed.

Lemma elem_of_find_empty_folders (f : gmap Path node) (p : Path) :
  p ∈ filter (fun folder => FS.is_dir f folder = true
                            /\ FS.iterdir f folder = [])
             (FS.rglob f [] (fun _ => true))
  <-> empty_dir f p.
Proof.
  unfold FS.rglob, empty_dir.
  rewrite !list_elem_of_filter, elem_of_paths. unfold Pathlib.below. simpl.
  destruct p as [|x p]; simpl.
  - split; [intros (_ & (H & _) & _); discriminate | intros (H & _); done].
  - destruct (f !! (x :: p)) as [[|c]|] eqn:E; split;
      try (intros ((H & _) & _); discriminate);
      try (intros (_ & H & _); discriminate).
    + intros ((_ & H) & _). done.
    + intros (_ & _ & H). repeat split; eauto.
Qed.

Lemma insert_sorted_elem_of {A} (leb : A -> A -> bool) (x z : A) (acc : list A) :
  x ∈ PyStr.insert_sorted leb z acc <-> x = z \/ x ∈ acc.
Proof.
  induction acc as [|w acc IH]; simpl.
  - rewrite list_elem_of_singleton. split; [by left | intros [?|H]; [done|]].
    by apply not_elem_of_nil in H.
  - destruct (leb z w).
    + by rewrite elem_of_cons.
    + rewrite !elem_of_cons, IH. tauto.
Qed.

Lemma NoDup_insert_sorted {A} (leb : A -> A -> bool) (z : A) (acc : list A) :
  z ∉ acc -> NoDup acc -> NoDup (PyStr.insert_sorted leb z acc).
Proof.
  induction acc as [|w acc IH]; simpl; intros Hz Hn.
  - apply NoDup_singleton.
  - destruct (leb z w); [by apply NoDup_cons|].
    apply not_elem_of_cons in Hz as [Hne Hz].
    apply NoDup_cons in Hn as [Hw Hn]. apply NoDup_cons. split.
    + rewrite insert_sorted_elem_of. intros [->|H]; done.
    + by apply IH.
Qed.

Lemma NoDup_sorted {A} (leb : A -> A -> bool) (l : list A) :
  NoDup l -> NoDup (PyStr.sorted leb l).
Proof.
  unfold PyStr.sorted. induction 1 as [|x l Hx _ IH]; simpl; [constructor|].
  apply NoDup_insert_sorted; [|done].
  intros H. apply Hx. revert H. clear.
  induction l as [|y l IH]; simpl; [done|].
  rewrite insert_sorted_elem_of, elem_of_cons. intros [->|H]; eauto.
Qed.

Lemma rmdir_loop_removes : forall (l : list Path) s,
  NoDup l ->
  (forall q, q ∈ l -> fs s !! q = Some Dir /\ FS.iterdir (fs s) q = []) ->
  exists s',
    for_each l rmdir s = Return tt s'
    /\ (forall q, q ∈ l -> fs s' !! q = None)
    /\ (forall q, q ∉ l -> fs s' !! q = fs s !! q)
    /\ data s' = data s
    /\ same_self s s'.
Proof.
  induction l as [|p l IH]; intros s Hn Hl.
  - exists s. split; [done|]. split; [by intros q Hq%not_elem_of_nil|].
    split; [done|]. split; [done | apply same_self_refl].
  - apply NoDup_cons in Hn as [Hp Hn].
    destruct (Hl p (list_elem_of_here _ _)) as [Hdir Hemp].
    simpl. unfold bind at 1, rmdir at 1, lift_fs, FS.rmdir.
    rewrite Hdir, Hemp.
    destruct (IH (with_fs (delete p (fs s)) s) Hn)
      as (s' & Hrun & Hgone & Hkept & Hd & Hs).
    { intros q Hq. simpl.
      destruct (Hl q (list_elem_of_further _ _ _ Hq)) as [Hqd Hqe].
      split; [|by apply iterdir_delete_empty].
      rewrite lookup_delete_ne; [done|]. by intros ->. }
    exists s'. split; [exact Hrun|]. split; [|split; [|split; [done|]]].
    + intros q Hq. apply elem_of_cons in Hq as [->|Hq]; [|by apply Hgone].
      rewrite Hkept by done. simpl. apply lookup_delete_eq.
    + intros q Hq. apply not_elem_of_cons in Hq as [Hne Hq].
      rewrite Hkept by done. simpl. by apply lookup_delete_ne.
    + destruct Hs as (? & ? & ? & ? & ? & ? & ? & ? & ?). by repeat split.
Qed.

Lemma remove_empty_folder_effect s :
  exists s',
    remove_empty_folder s = Return tt s'
    /\ (forall p, empty_dir (fs s) p -> fs s' !! p = None)
    /\ (forall p, ~ empty_dir (fs s) p -> fs s' !! p = fs s !! p)
    /\ data s' = data s
    /\ same_self s s'.
Proof.
  unfold remove_empty_folder, bind, find_empty_folders, get, ret.
  set (found := filter (fun folder => FS.is_dir (fs s) folder = true
                                      /\ FS.iterdir (fs s) folder = [])
                       (FS.rglob (fs s) [] (fun _ => true))).
  destruct (rmdir_loop_removes
              (PyStr.sorted (fun a b => Pathlib.leb b a) found) s)
    as (s' & Hrun & Hgone & Hkept & Hd & Hs).
  { apply NoDup_sorted. apply NoDup_filter. unfold FS.rglob.
    apply NoDup_filter. rewrite map_is_fmap. apply NoDup_fst_map_to_list. }
  { intros q Hq. apply sorted_elem_of in Hq.
    apply elem_of_find_empty_folders in Hq as (_ & H1 & H2). done. }
  exists s'. split; [exact Hrun|]. split; [|split; [|done]].
  - intros p Hp. apply Hgone. apply sorted_elem_of.
    by apply elem_of_find_empty_folders.
  - intros p Hp. apply Hkept. intros Hin. apply Hp.
    apply sorted_elem_of in Hin. by apply elem_of_find_empty_folders in Hin.
Qed.


(** X10: [remove_empty_folder] returns for every state; afterwards exactly
    the directories that held nothing when the pass started are gone, the
    managed folders among them, and every other path is as before; the
    catalog is not touched. *)
Theorem remove_empty_folder_removes s :
  exists s',
    remove_empty_folder s = Return tt s'
    /\ (forall p, empty_dir (fs s) p -> fs s' !! p = None)
    /\ (forall p, ~ empty_dir (fs s) p -> fs s' !! p = fs s !! p)
    /\ data s' = data s
    /\ same_self s s'.
Proof.
  destruct (remove_empty_folder_effect s)
    as (s' & Hrun & Hgone & Hkept & Hd & Hs).
  exists s'. split; [exact Hrun|]. split; [exact Hgone|].
  split; [exact Hkept|]. split; [exact Hd | exact Hs].
Qed.

(** X11: when the processed folder holds nothing at the end of a run, as
    after a run in which every readable file was a duplicate, the cleanup
    removes it and [get_summary], which lists it, ends the run with
    [FileNotFoundError]. *)
Theorem summary_after_cleanup_raises s :
  empty_dir (fs s) (processed_folder s) ->
  exists s1,
    remove_empty_folder s = Return tt s1
    /\ get_summary s1 = Raise FileNotFoundError s1
    /\ (remove_empty_folder ;; get_summary) s = Raise FileNotFoundError s1.
Proof.
  intros He. pose proof He as (Hne & _).
  destruct (remove_empty_folder_effect s) as (s1 & Hrun & Hgone & _ & _ & Hs).
  assert (Hp : processed_folder s1 = processed_folder s) by apply Hs.
  assert (Hsum : get_summary s1 = Raise FileNotFoundError s1).
  { unfold get_summary, bind, get, FS.is_dir.
    rewrite Hp, (Hgone _ He). by destruct (processed_folder s). }
  exists s1. split; [done|]. split; [done|]. unfold bind. by rewrite Hrun.
Qed.

Lemma summary_after_cleanup_raises_witness :
  let listing := [["lib"; "a.epub"]; ["lib"; "c.epub"]] in
  let s := final ((classifier listing ;; find_duplicate_by_identifier ;;
                   author_group ;; generate_csv) (Epub Samples.twins [])) in
  empty_dir (fs s) (processed_folder s)
  /\ exists s1,
      remove_empty_folder s = Return tt s1
      /\ get_summary s1 = Raise FileNotFoundError s1
      /\ (remove_empty_folder ;; get_summary) s = Raise FileNotFoundError s1.
Proof.
  assert (H : empty_dir
                (fs (final ((classifier [["lib"; "a.epub"]; ["lib"; "c.epub"]] ;;
                             find_duplicate_by_identifier ;;
                             author_group ;; generate_csv)
                              (Epub Samples.twins []))))
                (processed_folder
                   (final ((classifier [["lib"; "a.epub"]; ["lib"; "c.epub"]] ;;
                            find_duplicate_by_identifier ;;
                            author_group ;; generate_csv)
                             (Epub Samples.twins []))))).
  { vm_compute. split; [discriminate|]. split; reflexivity. }
  split; [exact H|]. by apply summary_after_cleanup_raises.
Defined.

(** ** More on [generate_csv] *)

Lemma writerow_effect out r s :
  let s' := final (writerow out r s) in
  (forall p, p <> out -> fs s' !! p = fs s !! p)
  /\ data s' = data s /\ same_self s s'.
Proof.
  unfold writerow, lift_fs.
  destruct (fs s !! out) as [[|[m ro|rows]]|]; simpl;
    (split; [|split; [reflexivity | by repeat split]]);
    try (intros p Hp; reflexivity).
  intros p Hp. by apply lookup_insert_ne.
Qed.

Lemma write_rows_loop_effect out fieldnames (content : list (list (string * pyval))) :
  forall s,
    let s' := final (for_each content (fun row =>
                       match dict_to_list fieldnames row with
                       | inl e => raise e
                       | inr r => writerow out r
                       end) s) in
    (forall p, p <> out -> fs s' !! p = fs s !! p)
    /\ data s' = data s /\ same_self s s'.
Proof.
  induction content as [|row content IH]; intros s; simpl.
  - split; [done|]. split; [done | apply same_self_refl].
  - rewrite final_bind. destruct (dict_to_list fieldnames row) as [e|r].
    + simpl. split; [done|]. split; [done | apply same_self_refl].
    + pose proof (writerow_effect out r s) as (Hf & Hd & Hs). simpl in *.
      destruct (writerow out r s) as [[] s1|e s1]; simpl in *.
      * destruct (IH s1) as (Hf' & Hd' & Hs'). split.
        -- intros p Hp. by rewrite Hf', Hf.
        -- split; [congruence | by eapply same_self_trans].
      * done.
Qed.

Lemma generate_csv_effect s s' :
  final (generate_csv s) = s' ->
  (forall p, p <> csv_output s -> fs s' !! p = fs s !! p)
  /\ data s' = data s
  /\ same_self s s'.
Proof.
  unfold generate_csv, get. rewrite final_bind. cbn beta iota.
  rewrite final_bind. unfold lift_fs at 1, FS.write_rows.
  destruct (FS.is_dir (fs s) (csv_output s)); cbn beta iota;
    [intros <-; split; [done|]; split; [done | apply same_self_refl]|].
  destruct (negb (FS.is_dir (fs s) (Pathlib.parent (csv_output s))));
    cbn beta iota;
    [intros <-; split; [done|]; split; [done | apply same_self_refl]|].
  rewrite final_bind.
  set (s0 := with_fs (<[csv_output s:=File (Blob [])]> (fs s)) s).
  pose proof (writerow_effect (csv_output s)
                (PyStr.sorted String.leb (csv_header s)) s0) as (Hf & Hd & Hs).
  cbn zeta in Hf, Hd, Hs.
  destruct (writerow (csv_output s) (PyStr.sorted String.leb (csv_header s)) s0)
    as [[] s1|e s1]; cbn [final] in *.
  - pose proof (write_rows_loop_effect (csv_output s)
                  (PyStr.sorted String.leb (csv_header s))
                  (map row_of (data s)) s1) as (Hf' & Hd' & Hs').
    cbn zeta in Hf', Hd', Hs'. intros <-. split.
    + intros p Hp. rewrite Hf', Hf by done. unfold s0. simpl.
      by apply lookup_insert_ne.
    + split; [by rewrite Hd', Hd|].
      eapply same_self_trans; [|exact Hs'].
      eapply same_self_trans; [|exact Hs]. by repeat split.
  - intros <-. split.
    + intros p Hp. rewrite Hf by done. unfold s0. simpl.
      by apply lookup_insert_ne.
    + split; [done|]. eapply same_self_trans; [|exact Hs]. by repeat split.
Qed.

(** X12: whatever the header and whether it returns or raises,
    [generate_csv] changes nothing but the file at [csv_output]: every other
    path, the catalog and the other fields of [self] are as before. *)
Theorem generate_csv_only_report s :
  let s' := final (generate_csv s) in
  (forall p, p <> csv_output s -> fs s' !! p = fs s !! p)
  /\ data s' = data s
  /\ same_self s s'.
Proof.
  destruct (generate_csv_effect s _ eq_refl) as (Hfs & Hd & Hs).
  split; [exact Hfs|]. split; [exact Hd | exact Hs].
Qed.

Lemma write_loop_state out : forall (l : list entry) (acc : list (list string)) s,
  fs s !! out = Some (File (Blob acc)) ->
  for_each (map row_of l)
    (fun row => match dict_to_list report_header row with
                | inl e => raise e
                | inr r => writerow out r
                end) s
  = Return tt (with_fs (<[out := File (Blob (acc ++ map report_row l))]> (fs s)) s).
Proof.
  induction l as [|d l IH]; intros acc s Hout.
  - simpl. rewrite app_nil_r, insert_id by done. by destruct s.
  - cbn [map for_each]. unfold bind at 1. rewrite dict_to_list_row.
    unfold writerow, lift_fs. rewrite Hout.
    rewrite (IH (acc ++ [report_row d])) by apply lookup_insert_eq.
    simpl. rewrite insert_insert_eq, <- app_assoc. reflexivity.
Qed.

(** The state [generate_csv] returns. *)
Lemma generate_csv_state s :
  csv_header s = CSV_HEADER ->
  FS.is_dir (fs s) (csv_output s) = false ->
  FS.is_dir (fs s) (Pathlib.parent (csv_output s)) = true ->
  generate_csv s
  = Return tt (with_fs (<[csv_output s :=
                            File (Blob (report_header :: map report_row (data s)))]>
                          (fs s)) s).
Proof.
  intros Hh Hnd Hpd. unfold generate_csv, bind, get, lift_fs, FS.write_rows.
  rewrite Hnd, Hpd, Hh, sorted_header. simpl.
  unfold writerow at 1, lift_fs. simpl. rewrite lookup_insert_eq.
  rewrite insert_insert_eq.
  rewrite (write_loop_state (csv_output s) (data s) [report_header])
    by apply lookup_insert_eq.
  simpl. by rewrite insert_insert_eq.
Qed.

(** X13: writing the report twice is the same as writing it once: the second
    run replaces the file by the same header and rows. *)
Theorem generate_csv_twice s :
  csv_header s = CSV_HEADER ->
  FS.is_dir (fs s) (csv_output s) = false ->
  FS.is_dir (fs s) (Pathlib.parent (csv_output s)) = true ->
  (generate_csv ;; generate_csv) s = generate_csv s.
Proof.
  intros Hh Hnd Hpd. unfold bind.
  rewrite (generate_csv_state s Hh Hnd Hpd).
  set (F := <[csv_output s := File (Blob (report_header :: map report_row (data s)))]>
              (fs s)).
  assert (Hout : csv_output s <> []).
  { intros E. rewrite E in Hnd. discriminate. }
  assert (Hnd' : FS.is_dir F (csv_output s) = false).
  { unfold FS.is_dir, F. rewrite lookup_insert_eq. by destruct (csv_output s). }
  assert (Hpd' : FS.is_dir F (Pathlib.parent (csv_output s)) = true).
  { unfold FS.is_dir, F in *.
    destruct (Pathlib.parent (csv_output s)) as [|x q] eqn:E; [done|].
    rewrite lookup_insert_ne; [done|].
    intros E'. rewrite <- E' in Hpd. unfold FS.is_dir in Hnd.
    destruct (csv_output s); [done|]. congruence. }
  rewrite (generate_csv_state (with_fs F s)); try done.
  simpl. unfold F. by rewrite insert_insert_eq.
Qed.

Lemma generate_csv_twice_witness :
  let s := final (classifier [["lib"; "a.epub"]; ["lib"; "c.epub"]]
                             (Epub Samples.twins [])) in
  csv_header s = CSV_HEADER
  /\ FS.is_dir (fs s) (csv_output s) = false
  /\ FS.is_dir (fs s) (Pathlib.parent (csv_output s)) = true
  /\ (generate_csv ;; generate_csv) s = generate_csv s.
Proof.
  split; [vm_compute; reflexivity|].
  split; [vm_compute; reflexivity|].
  split; [vm_compute; reflexivity|].
  apply generate_csv_twice; vm_compute; reflexivity.
Defined.

(** ** More on [rename_file] *)

Lemma rename_one_effect epub s :
  let s' := final (rename_one epub s) in
  data s' = data s /\ same_self s s'.
Proof.
  unfold rename_one, bind, get_metadata, get, rename, lift_fs.
  destruct (FS.get_metadata (fs s) epub) as [e|md]; simpl;
    [split; [done | apply same_self_refl]|].
  destruct (FS.rename _ _ _); simpl; split; try done; by repeat split.
Qed.

(** X14: the rename pass never touches the catalog: whether it returns or
    raises, [self.data] and the other fields of [self] are as before, so
    the recorded paths of renamed files are not updated by this pass. *)
Theorem rename_file_keeps_catalog s :
  let s' := final (rename_file s) in
  data s' = data s /\ same_self s s'.
Proof.
  unfold rename_file, get. cbn zeta. rewrite final_bind. cbn beta iota.
  generalize (FS.rglob (fs s) (processed_folder s) Pathlib.matches_epub).
  intros l. revert s. induction l as [|p l IH]; intros s; simpl.
  - split; [done | apply same_self_refl].
  - rewrite final_bind.
    pose proof (rename_one_effect p s) as (Hd & Hs). cbn zeta in Hd, Hs.
    destruct (rename_one p s) as [[] s1|e s1]; cbn [final] in *; [|done].
    destruct (IH s1) as (Hd' & Hs').
    split; [congruence | by eapply same_self_trans].
Qed.

Lemma rename_file_onto (f : gmap Path node) (src dst : Path) c :
  f !! src = Some (File c) ->
  FS.is_dir f (Pathlib.parent dst) = true ->
  FS.is_dir f dst = false ->
  FS.rename f src dst = inr (<[dst := File c]> (delete src f)).
Proof.
  intros Hs Hp Hd. unfold FS.rename, FS.exists_. by rewrite Hs, Hp, Hd.
Qed.

Lemma rename_one_moves s epub m ro :
  fs s !! epub = Some (File (EpubDoc m ro)) ->
  let target := processed_folder s
                // renamed_name (title m) (Pathlib.suffix epub) in
  FS.is_dir (fs s) (Pathlib.parent target) = true ->
  FS.is_dir (fs s) target = false ->
  rename_one epub s
  = Return tt (with_fs (<[target := File (EpubDoc m ro)]> (delete epub (fs s))) s).
Proof.
  intros Hf target Hpd Hnd.
  unfold rename_one, bind, get_metadata, FS.get_metadata, get, rename, lift_fs.
  rewrite Hf. simpl. fold target. by rewrite (rename_file_onto _ _ _ _ Hf Hpd Hnd).
Qed.

(** X15: two different files of the processed folder whose metadata have
    the same title and whose names have the same suffix are renamed to the
    same path.  The second rename replaces the first file: afterwards the
    one remaining file holds the second book, and both old paths are
    gone. *)
Theorem rename_same_title_overwrites s a b ma ra mb rb :
  fs s !! a = Some (File (EpubDoc ma ra)) ->
  fs s !! b = Some (File (EpubDoc mb rb)) ->
  a <> b ->
  title ma = title mb ->
  Pathlib.suffix a = Pathlib.suffix b ->
  let target := processed_folder s
                // renamed_name (title ma) (Pathlib.suffix a) in
  target <> a -> target <> b ->
  FS.is_dir (fs s) (Pathlib.parent target) = true ->
  FS.is_dir (fs s) target = false ->
  exists s',
    (rename_one a ;; rename_one b) s = Return tt s'
    /\ fs s' !! target = Some (File (EpubDoc mb rb))
    /\ fs s' !! a = None
    /\ fs s' !! b = None
    /\ (forall p, p <> a -> p <> b -> p <> target -> fs s' !! p = fs s !! p).
Proof.
  intros Ha Hb Hab Ht Hsuf target Hta Htb Hpd Hnd.
  unfold bind at 1.
  rewrite (rename_one_moves s a ma ra Ha Hpd Hnd). fold target.
  set (f1 := <[target := File (EpubDoc ma ra)]> (delete a (fs s))).
  assert (Htarget : target <> []).
  { intros E. rewrite E in Hnd. discriminate. }
  assert (Hb1 : f1 !! b = Some (File (EpubDoc mb rb))).
  { unfold f1. rewrite lookup_insert_ne by done.
    by rewrite lookup_delete_ne. }
  assert (Hpd1 : FS.is_dir f1 (Pathlib.parent target) = true).
  { unfold FS.is_dir in *.
    destruct (Pathlib.parent target) as [|x q] eqn:E; [done|].
    unfold f1. destruct (decide (target = x :: q)) as [E'|Hne].
    - rewrite <- E' in Hpd. destruct target; [done|]. congruence.
    - rewrite lookup_insert_ne by done.
      destruct (decide (a = x :: q)) as [E'|Hne'].
      + rewrite <- E', Ha in Hpd. discriminate.
      + by rewrite lookup_delete_ne. }
  assert (Hnd1 : FS.is_dir f1 target = false).
  { unfold FS.is_dir, f1. rewrite lookup_insert_eq. by destruct target. }
  pose proof (rename_one_moves (with_fs f1 s) b mb rb Hb1) as H2.
  cbn zeta in H2. simpl processed_folder in H2. simpl fs in H2.
  rewrite <- Ht, <- Hsuf in H2. fold target in H2.
  rewrite (H2 Hpd1 Hnd1). eexists. split; [reflexivity|]. simpl.
  split; [apply lookup_insert_eq|].
  split.
  { rewrite lookup_insert_ne by done. rewrite lookup_delete_ne by done.
    unfold f1. rewrite lookup_insert_ne by done. apply lookup_delete_eq. }
  split.
  { rewrite lookup_insert_ne by done. apply lookup_delete_eq. }
  intros p Hpa Hpb Hpt. rewrite lookup_insert_ne by done.
  rewrite lookup_delete_ne by done. unfold f1.
  rewrite lookup_insert_ne by done. by rewrite lookup_delete_ne.
Qed.

(** ** The sanitizing of names *)

Lemma underscore_clean c : underscore c <> ","%char /\ underscore c <> " "%char.
Proof.
  unfold underscore.
  destruct (Ascii.eqb c ",") eqn:E1; simpl; [split; discriminate|].
  destruct (Ascii.eqb c " ") eqn:E2; [split; discriminate|].
  apply Ascii.eqb_neq in E1, E2. done.
Qed.

(** X16: the name of an author folder never contains a comma or a space,
    whatever the author list, and sanitizing is idempotent: a sanitized name
    is its own sanitized form. *)
Theorem author_name_clean m :
  (forall i, String.get i (author_name m) <> Some ","%char
             /\ String.get i (author_name m) <> Some " "%char)
  /\ sanitized (author_name m) = author_name m.
Proof.
  unfold author_name. generalize (PyStr.join "-" (author_list m)). intros x.
  split.
  - intros i. rewrite sanitized_get.
    destruct (String.get i x) as [c|]; simpl; [|split; discriminate].
    destruct (underscore_clean c) as [H1 H2]. split; congruence.
  - unfold sanitized. induction x as [|c x IH]; simpl; [done|].
    rewrite IH. f_equal.
    destruct (Ascii.eqb c ",") eqn:E1; simpl; [done|].
    destruct (Ascii.eqb c " ") eqn:E2; simpl; [done|].
    by rewrite E1, E2.
Qed.

Lemma rename_same_title_overwrites_witness :
  let s := final (classifier [["lib"; "a.epub"]; ["lib"; "c.epub"]]
                             (Epub Samples.twins [])) in
  let a := ["[processed]"; "a.epub"] in
  let b := ["[processed]"; "c.epub"] in
  let m := mkMetadata "ISBN-1" "First" ["Ann"] "" in
  let target := processed_folder s
                // renamed_name (title m) (Pathlib.suffix a) in
  fs s !! a = Some (File (EpubDoc m false))
  /\ fs s !! b = Some (File (EpubDoc m false))
  /\ a <> b
  /\ Pathlib.suffix a = Pathlib.suffix b
  /\ target <> a /\ target <> b
  /\ FS.is_dir (fs s) (Pathlib.parent target) = true
  /\ FS.is_dir (fs s) target = false
  /\ exists s',
      (rename_one a ;; rename_one b) s = Return tt s'
      /\ fs s' !! target = Some (File (EpubDoc m false))
      /\ fs s' !! a = None
      /\ fs s' !! b = None
      /\ (forall p, p <> a -> p <> b -> p <> target -> fs s' !! p = fs s !! p).
Proof.
  split; [vm_compute; reflexivity|].
  split; [vm_compute; reflexivity|].
  split; [discriminate|].
  split; [vm_compute; reflexivity|].
  split; [vm_compute; discriminate|].
  split; [vm_compute; discriminate|].
  split; [vm_compute; reflexivity|].
  split; [vm_compute; reflexivity|].
  apply (rename_same_title_overwrites
           (final (classifier [["lib"; "a.epub"]; ["lib"; "c.epub"]]
                              (Epub Samples.twins [])))
           ["[processed]"; "a.epub"] ["[processed]"; "c.epub"]
           (mkMetadata "ISBN-1" "First" ["Ann"] "") false
           (mkMetadata "ISBN-1" "First" ["Ann"] "") false);
    try (vm_compute; reflexivity); try discriminate;
    vm_compute; discriminate.
Defined.

(** ** [__post_init__] *)

Lemma mkdir_single (f : gmap Path node) (x : string) :
  FS.mkdir f [x]
  = match f !! [x] with
    | Some Dir => inr f
    | Some (File _) => inl FileExistsError
    | None => inr (<[[x] := Dir]> f)
    end.
Proof. unfold FS.mkdir. simpl. by destruct (f !! [x]) as [[|c]|]. Qed.

Lemma default_folders_of f keyboard :
  managed_folders (Epub f keyboard) = default_folders.
Proof. reflexivity. Qed.

Lemma post_init_effect f keyboard :
  forallb (fun p => negb (FS.is_file f p)) default_folders = true ->
  exists s',
    post_init (Epub f keyboard) = Return tt s'
    /\ (forall p, p ∈ default_folders -> fs s' !! p = Some Dir)
    /\ (forall p, p ∉ default_folders -> fs s' !! p = f !! p)
    /\ data s' = [] /\ identifier_list s' = [] /\ epub_list s' = []
    /\ csv_header s' = CSV_HEADER
    /\ managed_folders s' = default_folders.
Proof.
  intros H. simpl in H. unfold FS.is_file in H.
  unfold post_init, bind, modify, get, mkdir, lift_fs. simpl.
  change ([] // "[duplicates]") with ["[duplicates]"].
  change ([] // "[failed]") with ["[failed]"].
  change ([] // "[processed]") with ["[processed]"].
  rewrite !mkdir_single.
  assert (Hin : forall p : Path, p ∈ default_folders ->
            p = ["[duplicates]"] \/ p = ["[failed]"] \/ p = ["[processed]"]).
  { intros p Hp. unfold default_folders in Hp.
    rewrite !elem_of_cons in Hp. destruct Hp as [?|[?|[?|Hp]]]; eauto.
    by apply not_elem_of_nil in Hp. }
  assert (Hout : forall p : Path, p ∉ default_folders ->
            p <> ["[duplicates]"] /\ p <> ["[failed]"] /\ p <> ["[processed]"]).
  { intros p Hp. unfold default_folders in Hp.
    rewrite !not_elem_of_cons in Hp. tauto. }
  destruct (f !! ["[duplicates]"]) as [[|c1]|] eqn:E1; try discriminate;
    simpl; rewrite !mkdir_single; simpl;
    rewrite ?lookup_insert_ne by discriminate;
    (destruct (f !! ["[failed]"]) as [[|c2]|] eqn:E2; try discriminate);
    simpl; rewrite !mkdir_single; simpl;
    rewrite ?lookup_insert_ne by discriminate;
    (destruct (f !! ["[processed]"]) as [[|c3]|] eqn:E3; try discriminate);
    simpl; (eexists; split; [reflexivity|]); simpl;
    (split; [|split; [|done]]);
    try (intros p Hp; destruct (Hin p Hp) as [E|[E|E]]; subst p;
         rewrite ?lookup_insert_eq, ?lookup_insert_ne by discriminate;
         rewrite ?lookup_insert_eq; done);
    (intros p Hp; apply Hout in Hp as (H1 & H2 & H3);
     by rewrite ?lookup_insert_ne by done).
Qed.

(** X17: on a tree in which none of the three managed folder names is a
    regular file, [__post_init__] of [Epub()] returns: the three folders are
    directories afterwards, created when missing and kept when present, no
    other path changes, the catalog, the identifier list and the listing are
    empty and the header is [CSV_HEADER]. *)
Theorem post_init_creates_folders f keyboard :
  forallb (fun p => negb (FS.is_file f p)) default_folders = true ->
  exists s',
    post_init (Epub f keyboard) = Return tt s'
    /\ (forall p, p ∈ default_folders -> fs s' !! p = Some Dir)
    /\ (forall p, p ∉ default_folders -> fs s' !! p = f !! p)
    /\ data s' = [] /\ identifier_list s' = [] /\ epub_list s' = []
    /\ csv_header s' = CSV_HEADER
    /\ managed_folders s' = default_folders.
Proof.
  intros Hok.
  destruct (post_init_effect f keyboard Hok)
    as (s' & Hrun & Hdirs & Hother & Hrest).
  exists s'. split; [exact Hrun|]. split; [exact Hdirs|].
  split; [exact Hother | exact Hrest].
Qed.

Lemma post_init_creates_folders_witness :
  forallb (fun p => negb (FS.is_file Samples.pair p)) default_folders = true
  /\ exists s',
      post_init (Epub Samples.pair []) = Return tt s'
      /\ (forall p, p ∈ default_folders -> fs s' !! p = Some Dir)
      /\ (forall p, p ∉ default_folders -> fs s' !! p = Samples.pair !! p)
      /\ data s' = [] /\ identifier_list s' = [] /\ epub_list s' = []
      /\ csv_header s' = CSV_HEADER
      /\ managed_folders s' = default_folders.
Proof.
  split; [vm_compute; reflexivity|].
  apply post_init_creates_folders. vm_compute. reflexivity.
Defined.

(** X18: when one of the three managed folder names is a regular file,
    [__post_init__] of [Epub()] fails with [FileExistsError]: [exist_ok]
    accepts an existing directory only. *)
Theorem post_init_file_in_the_way f keyboard :
  existsb (FS.is_file f) default_folders = true ->
  exists s', post_init (Epub f keyboard) = Raise FileExistsError s'.
Proof.
  intros H. simpl in H. unfold FS.is_file in H.
  unfold post_init, bind, modify, get, mkdir, lift_fs. simpl.
  change ([] // "[duplicates]") with ["[duplicates]"].
  change ([] // "[failed]") with ["[failed]"].
  change ([] // "[processed]") with ["[processed]"].
  rewrite !mkdir_single.
  destruct (f !! ["[duplicates]"]) as [[|c1]|] eqn:E1;
    simpl; rewrite ?mkdir_single; simpl;
    rewrite ?lookup_insert_ne by discriminate;
    try (eexists; reflexivity);
    (destruct (f !! ["[failed]"]) as [[|c2]|] eqn:E2);
    simpl; rewrite ?mkdir_single; simpl;
    rewrite ?lookup_insert_ne by discriminate;
    try (eexists; reflexivity);
    (destruct (f !! ["[processed]"]) as [[|c3]|] eqn:E3);
    simpl; try (eexists; reflexivity); discriminate.
Qed.

Lemma post_init_file_in_the_way_witness :
  let f : gmap Path node := <[["[failed]"] := Samples.broken]> Samples.pair in
  existsb (FS.is_file f) default_folders = true
  /\ exists s', post_init (Epub f []) = Raise FileExistsError s'.
Proof.
  split; [vm_compute; reflexivity|].
  apply post_init_file_in_the_way. vm_compute. reflexivity.
Defined.

(** ** The interactive passes *)

Lemma with_stdin_same s : with_stdin (stdin s) s = s.
Proof. by destruct s. Qed.

Lemma authors_loop_declined : forall (files : list Path) answers rest s,
  length answers = length files ->
  forallb (fun a => negb (says_yes a)) answers = true ->
  forallb (decodes (fs s)) files = true ->
  stdin s = answers ++ rest ->
  for_each files (fun epub =>
    md <- get_metadata epub ;;
    change_author <- input ;;
    if says_yes change_author then
      name <- input ;;
      let md' := set_author_list_from_string name md in
      update_data (identifier md') (Some md') None
    else ret tt) s
  = Return tt (with_stdin rest s).
Proof.
  induction files as [|p files IH]; intros answers rest s Hlen Hno Hdec Hin.
  - destruct answers; [|discriminate]. simpl in Hin. simpl. unfold ret.
    by rewrite <- Hin, with_stdin_same.
  - destruct answers as [|a answers]; [discriminate|].
    simpl in Hlen, Hno, Hdec, Hin.
    apply andb_prop in Hno as [Ha Hno]. apply andb_prop in Hdec as [Hp Hdec].
    apply negb_true_iff in Ha. unfold decodes in Hp.
    simpl. unfold bind at 1, bind at 1, get_metadata.
    destruct (FS.get_metadata (fs s) p) as [e|md]; [discriminate|].
    unfold bind at 1, input. rewrite Hin, Ha. unfold ret at 1.
    rewrite (IH answers rest); try done. lia.
Qed.

Lemma titles_loop_declined : forall (files : list Path) answers rest s,
  length answers = length files ->
  forallb (fun a => negb (says_yes a)) answers = true ->
  forallb (decodes (fs s)) files = true ->
  stdin s = answers ++ rest ->
  for_each files (fun epub =>
    md <- get_metadata epub ;;
    change_title <- input ;;
    if says_yes change_title then
      new_title <- input ;;
      let md' := set_title new_title md in
      update_data (identifier md') (Some md') None
    else ret tt) s
  = Return tt (with_stdin rest s).
Proof.
  induction files as [|p files IH]; intros answers rest s Hlen Hno Hdec Hin.
  - destruct answers; [|discriminate]. simpl in Hin. simpl. unfold ret.
    by rewrite <- Hin, with_stdin_same.
  - destruct answers as [|a answers]; [discriminate|].
    simpl in Hlen, Hno, Hdec, Hin.
    apply andb_prop in Hno as [Ha Hno]. apply andb_prop in Hdec as [Hp Hdec].
    apply negb_true_iff in Ha. unfold decodes in Hp.
    simpl. unfold bind at 1, bind at 1, get_metadata.
    destruct (FS.get_metadata (fs s) p) as [e|md]; [discriminate|].
    unfold bind at 1, input. rewrite Hin, Ha. unfold ret at 1.
    rewrite (IH answers rest); try done. lia.
Qed.

(** X19: when every file of the processed folder decodes and the operator
    answers each prompt with anything other than [y] or [Y] (an empty line
    and the word [yes] included), the author pass and the title pass each
    return having read exactly one line per file; no file is rewritten and
    the catalog is not changed. *)
Theorem prompts_all_declined s answers rest :
  let files := FS.rglob (fs s) (processed_folder s) Pathlib.matches_epub in
  length answers = length files ->
  forallb (fun a => negb (says_yes a)) answers = true ->
  forallb (decodes (fs s)) files = true ->
  stdin s = answers ++ rest ->
  update_authors s = Return tt (with_stdin rest s)
  /\ update_title s = Return tt (with_stdin rest s).
Proof.
  intros files Hlen Hno Hdec Hin. split.
  - unfold update_authors, bind at 1, get_processed_epub, bind at 1, get, ret.
    by apply authors_loop_declined with (answers := answers).
  - unfold update_title, bind at 1, get_processed_epub, bind at 1, get, ret.
    by apply titles_loop_declined with (answers := answers).
Qed.

Lemma prompts_all_declined_witness :
  let s := final (classifier [["lib"; "a.epub"]; ["lib"; "c.epub"]]
                             (Epub Samples.twins [""; "yes"; "later"])) in
  let files := FS.rglob (fs s) (processed_folder s) Pathlib.matches_epub in
  length [""; "yes"] = length files
  /\ forallb (fun a => negb (says_yes a)) [""; "yes"] = true
  /\ forallb (decodes (fs s)) files = true
  /\ stdin s = [""; "yes"] ++ ["later"]
  /\ update_authors s = Return tt (with_stdin ["later"] s)
  /\ update_title s = Return tt (with_stdin ["later"] s).
Proof.
  split; [vm_compute; reflexivity|].
  split; [vm_compute; reflexivity|].
  split; [vm_compute; reflexivity|].
  split; [vm_compute; reflexivity|].
  apply (prompts_all_declined
           (final (classifier [["lib"; "a.epub"]; ["lib"; "c.epub"]]
                              (Epub Samples.twins [""; "yes"; "later"])))
           [""; "yes"] ["later"]); vm_compute; reflexivity.
Defined.

(** ** [author_group] *)

Lemma mkdir_prefixes_present (f : gmap Path node) (q : Path) : forall n,
  (forall k, 0 < k <= n -> f !! take k q = Some Dir) ->
  FS.mkdir_prefixes f q n = inr f.
Proof.
  induction n as [|n IH]; intros H; simpl; [done|].
  rewrite IH by (intros k Hk; apply H; lia).
  change (f !! take (S n) q) with (f !! take (S n) q).
  assert (E : f !! take (S n) q = Some Dir) by (apply H; lia).
  simpl in E. by rewrite E.
Qed.

Lemma mkdir_leaf (f : gmap Path node) (p : Path) x :
  dir_chain f p -> f !! (p ++ [x]) = None ->
  FS.mkdir f (p ++ [x]) = inr (<[p ++ [x] := Dir]> f).
Proof.
  intros Hc Hn. unfold FS.mkdir.
  replace (length (p ++ [x])) with (S (length p))
    by (rewrite length_app; simpl; lia).
  cbn [FS.mkdir_prefixes].
  rewrite mkdir_prefixes_present.
  - assert (E : take (S (length p)) (p ++ [x]) = p ++ [x]).
    { apply take_ge. rewrite length_app. simpl. lia. }
    rewrite E, Hn. done.
  - intros k Hk. rewrite take_app_le by lia. by apply Hc.
Qed.

Lemma dir_chain_is_dir (f : gmap Path node) (p : Path) :
  dir_chain f p -> FS.is_dir f p = true.
Proof.
  intros Hc. unfold FS.is_dir. destruct p as [|x p]; [done|].
  assert (E : f !! take (length (x :: p)) (x :: p) = Some Dir)
    by (apply Hc; simpl; lia).
  rewrite firstn_all in E. by rewrite E.
Qed.

Lemma with_fs_same s : with_fs (fs s) s = s.
Proof. by destruct s. Qed.

(** X20: grouping when the processed folder, an existing directory, lists
    one readable file, the sanitized author list and the file name are
    plain names, no regular file has the name of the author folder and no
    directory that of the target.  The file is moved into the folder named
    after its author list directly below the processed folder, under its
    own name; that folder is created when it is missing; every catalog
    entry carrying the file's identifier keeps its flags and its metadata
    and is recorded at the new path, and all other entries are unchanged. *)
Theorem author_group_one_file s epub m ro :
  FS.rglob (fs s) (processed_folder s) Pathlib.matches_epub = [epub] ->
  fs s !! epub = Some (File (EpubDoc m ro)) ->
  simple_name (author_name m) ->
  simple_name (Pathlib.name epub) ->
  dir_chain (fs s) (processed_folder s) ->
  let folder := processed_folder s ++ [author_name m] in
  let target := folder ++ [Pathlib.name epub] in
  FS.is_file (fs s) folder = false ->
  FS.is_dir (fs s) target = false ->
  exists s',
    author_group s = Return tt s'
    /\ fs s' !! folder = Some Dir
    /\ fs s' !! target = Some (File (EpubDoc m ro))
    /\ (target <> epub -> fs s' !! epub = None)
    /\ data s' = map (fun d => if carries (identifier m) d
                               then {| is_duplicate := is_duplicate d;
                                       is_failed := is_failed d;
                                       metadata := metadata d;
                                       path := target |}
                               else d) (data s).
Proof.
  intros Hfiles Hepub Hn He Hchain folder target Hnf Hnd.
  unfold author_group, bind at 1, get_processed_epub, bind at 1, get, ret.
  rewrite Hfiles. cbn [for_each]. unfold bind at 1, bind at 1.
  unfold get_metadata at 1, FS.get_metadata. rewrite Hepub.
  unfold bind at 1, get.
  set (md := {| identifier := identifier m; title := title m;
                author_list := author_list m;
                file := Pathlib.as_posix epub |}).
  change (author_name md) with (author_name m).
  rewrite (div_simple _ _ Hn). fold folder.
  rewrite (div_simple _ _ He). fold target.
  assert (Hfe : folder <> epub).
  { intros E. unfold FS.is_file in Hnf. by rewrite E, Hepub in Hnf. }
  assert (Hft : folder <> target).
  { intros E. apply (f_equal length) in E. unfold target in E.
    rewrite length_app in E. simpl in E. lia. }
  assert (Hpt : Pathlib.parent target = folder).
  { unfold target. rewrite <- (div_simple _ _ He). by apply parent_div. }
  assert (Hfne : folder <> []).
  { unfold folder. by destruct (processed_folder s). }
  assert (Hstep : exists f1,
    ((if negb (FS.exists_ (fs s) folder) then mkdir folder
      else (fun s0 : State => Return tt s0)) s
     = Return tt (with_fs f1 s))
    /\ f1 !! folder = Some Dir
    /\ (forall p, p <> folder -> f1 !! p = fs s !! p)).
  { unfold FS.exists_. rewrite Hnf, orb_false_r.
    destruct (FS.is_dir (fs s) folder) eqn:Hd; simpl.
    - exists (fs s). rewrite (with_fs_same s).
      split; [done|]. split; [|done].
      unfold FS.is_dir in Hd. destruct folder; [done|].
      by destruct (fs s !! (s0 :: folder)) as [[|c]|].
    - assert (Hnone : fs s !! folder = None).
      { unfold FS.is_dir, FS.is_file in *. destruct folder; [done|].
        by destruct (fs s !! (s0 :: folder)) as [[|c]|]. }
      exists (<[folder := Dir]> (fs s)). unfold mkdir, lift_fs.
      unfold folder at 1. rewrite mkdir_leaf by done. fold folder.
      split; [done|]. split; [apply lookup_insert_eq|].
      intros p Hp. by apply lookup_insert_ne. }
  destruct Hstep as (f1 & Hrun1 & Hfolder1 & Hother1).
  unfold bind at 1. rewrite Hrun1. unfold bind at 1, rename, lift_fs.
  cbn [fs with_fs].
  assert (Hepub1 : f1 !! epub = Some (File (EpubDoc m ro))).
  { by rewrite Hother1. }
  assert (Hnd1 : FS.is_dir f1 target = false).
  { unfold FS.is_dir in *. destruct target as [|x q] eqn:E; [done|].
    rewrite Hother1 by done. done. }
  rewrite (rename_file_onto f1 epub target _ Hepub1).
  2: { rewrite Hpt. unfold FS.is_dir. destruct folder; [done|].
       by rewrite Hfolder1. }
  2: exact Hnd1.
  set (f2 := <[target := File (EpubDoc m ro)]> (delete epub f1)).
  destruct (update_data_path_map (identifier md) target
              (with_fs f2 (with_fs f1 s))) as (s' & Hrun & Hf & Hd & _).
  rewrite Hrun. unfold ret. exists s'. split; [done|].
  rewrite Hf. cbn [fs with_fs]. unfold f2.
  split.
  { rewrite lookup_insert_ne by done. by rewrite lookup_delete_ne. }
  split; [apply lookup_insert_eq|].
  split.
  { intros Hne. rewrite lookup_insert_ne by done. apply lookup_delete_eq. }
  rewrite Hd. cbn [data with_fs]. apply map_ext. intros d.
  change (identifier md) with (identifier m).
  by rewrite updated_fields.
Qed.

Lemma author_group_one_file_witness :
  let s := final (classifier [["lib"; "a.epub"]] (Epub Samples.solo [])) in
  let epub := ["[processed]"; "a.epub"] in
  let m := mkMetadata "ISBN-1" "My, Book" ["Ann"] "" in
  let folder := processed_folder s ++ [author_name m] in
  let target := folder ++ [Pathlib.name epub] in
  FS.rglob (fs s) (processed_folder s) Pathlib.matches_epub = [epub]
  /\ fs s !! epub = Some (File (EpubDoc m false))
  /\ simple_name (author_name m)
  /\ simple_name (Pathlib.name epub)
  /\ dir_chain (fs s) (processed_folder s)
  /\ FS.is_file (fs s) folder = false
  /\ FS.is_dir (fs s) target = false
  /\ exists s',
      author_group s = Return tt s'
      /\ fs s' !! folder = Some Dir
      /\ fs s' !! target = Some (File (EpubDoc m false))
      /\ (target <> epub -> fs s' !! epub = None)
      /\ data s' = map (fun d => if carries (identifier m) d
                                 then {| is_duplicate := is_duplicate d;
                                         is_failed := is_failed d;
                                         metadata := metadata d;
                                         path := target |}
                                 else d) (data s).
Proof.
  assert (Hn : simple_name (author_name (mkMetadata "ISBN-1" "My, Book" ["Ann"] ""))).
  { split; [vm_compute; reflexivity | vm_compute; discriminate]. }
  assert (He : simple_name (Pathlib.name ["[processed]"; "a.epub"])).
  { split; [vm_compute; reflexivity | vm_compute; discriminate]. }
  assert (Hc : dir_chain
                 (fs (final (classifier [["lib"; "a.epub"]] (Epub Samples.solo []))))
                 (processed_folder
                    (final (classifier [["lib"; "a.epub"]] (Epub Samples.solo []))))).
  { intros k Hk. change (length _) with 1 in Hk.
    assert (k = 1) as -> by lia. vm_compute. reflexivity. }
  split; [vm_compute; reflexivity|].
  split; [vm_compute; reflexivity|].
  split; [exact Hn|]. split; [exact He|]. split; [exact Hc|].
  split; [vm_compute; reflexivity|].
  split; [vm_compute; reflexivity|].
  apply (author_group_one_file
           (final (classifier [["lib"; "a.epub"]] (Epub Samples.solo [])))
           ["[processed]"; "a.epub"]
           (mkMetadata "ISBN-1" "My, Book" ["Ann"] "") false);
    try done; vm_compute; reflexivity.
Defined.

(** ** More on the first file of a listing *)

(** X21: when the first path of the listing is a regular file outside the
    managed folders that does not decode, [extract_metadata] does not
    return: it raises, with [UnboundLocalError] when the move to the failed
    folder succeeded, and no entry has been recorded. *)
Theorem extract_metadata_first_failure s p rest :
  epub_list s = (p :: rest) ->
  FS.is_file (fs s) p = true ->
  Pathlib.parent p ∉ managed_folders s ->
  decodes (fs s) p = false ->
  exists e s',
    extract_metadata s = Raise e s'
    /\ data s' = data s
    /\ (forall f, FS.rename (fs s) p (failed_folder s // Pathlib.name p) = inr f ->
                  e = UnboundLocalError /\ fs s' = f).
Proof.
  intros Hl Hfile Hout Hbad.
  assert (Hbad' : FS.get_metadata (fs s) p = inl DecodeError).
  { unfold decodes, FS.get_metadata in *.
    by destruct (fs s !! p) as [[|[m ro|rows]]|]. }
  destruct (extract_one_unbound s p Hfile Hout Hbad')
    as (e & s' & Hrun & Hd & Hren).
  exists e, s'. split; [|done].
  unfold extract_metadata, bind, get. rewrite Hl. simpl.
  unfold bind. by rewrite Hrun.
Qed.

Lemma extract_metadata_first_failure_witness :
  let s := final (discovered [["lib"; "b.epub"]; ["lib"; "a.epub"]]
                             (Epub Samples.pair [])) in
  let p := ["lib"; "b.epub"] in
  epub_list s = (p :: [["lib"; "a.epub"]])
  /\ FS.is_file (fs s) p = true
  /\ (Pathlib.parent p ∉ managed_folders s)
  /\ decodes (fs s) p = false
  /\ exists e s',
      extract_metadata s = Raise e s'
      /\ data s' = data s
      /\ (forall f, FS.rename (fs s) p (failed_folder s // Pathlib.name p) = inr f ->
                    e = UnboundLocalError /\ fs s' = f).
Proof.
  assert (H : Pathlib.parent ["lib"; "b.epub"]
              ∉ managed_folders
                  (final (discovered [["lib"; "b.epub"]; ["lib"; "a.epub"]]
                                     (Epub Samples.pair [])))).
  { apply (proj1 (bool_decide_eq_false _)). vm_compute. reflexivity. }
  split; [vm_compute; reflexivity|].
  split; [vm_compute; reflexivity|].
  split; [exact H|].
  split; [vm_compute; reflexivity|].
  apply extract_metadata_first_failure with (rest := [["lib"; "a.epub"]]);
    try exact H; vm_compute; reflexivity.
Defined.

(** ** [main] on a tree without e-books *)

Lemma elem_of_rglob (f : gmap Path node) (root p : Path) pattern :
  p ∈ FS.rglob f root pattern
  <-> is_Some (f !! p) /\ Pathlib.below root p = true
      /\ pattern (Pathlib.name p) = true.
Proof.
  unfold FS.rglob. rewrite list_elem_of_filter, elem_of_paths. tauto.
Qed.

(** X22: on a tree with no path named [*.epub] (and no regular file in the
    way of the managed folders) [main] does what [__post_init__] does and
    nothing more, whatever the flags: the three folders exist afterwards,
    no report is written and nothing is read from the operator. *)
Theorem main_nothing_found f keyboard args :
  forallb (fun p => negb (FS.is_file f p)) default_folders = true ->
  FS.rglob f [] Pathlib.matches_epub = [] ->
  exists s',
    main args (Epub f keyboard) = Return tt s'
    /\ post_init (Epub f keyboard) = Return tt s'
    /\ fs s' !! csv_output s' = f !! csv_output s'
    /\ stdin s' = keyboard.
Proof.
  intros Hok Hnone.
  destruct (post_init_effect f keyboard Hok)
    as (s' & Hrun & Hdirs & Hother & Hd & Hi & He & Hh & Hm).
  assert (Hsame : stdin s' = keyboard /\ csv_output s' = ["epub_metadata.csv"]
                  /\ epub_path s' = []).
  { revert Hrun. unfold post_init, bind, modify, get, mkdir, lift_fs. simpl.
    repeat (match goal with
            | |- context [FS.mkdir ?g ?q] => destruct (FS.mkdir g q); simpl
            end; try discriminate).
    intros H. by inversion H. }
  destruct Hsame as (Hstdin & Hcsv & Hpath).
  assert (Hlist : FS.rglob (fs s') (epub_path s') Pathlib.matches_epub = []).
  { rewrite Hpath. apply elem_of_nil_inv. intros p Hp.
    apply elem_of_rglob in Hp as (Hsome & Hb & Hmatch).
    destruct (decide (p ∈ default_folders)) as [Hin|Hout].
    - unfold default_folders in Hin. rewrite !elem_of_cons in Hin.
      destruct Hin as [->|[->|[->|Hin]]]; try discriminate.
      by apply not_elem_of_nil in Hin.
    - rewrite Hother in Hsome by done.
      assert (Hp : p ∈ FS.rglob f [] Pathlib.matches_epub)
        by (by apply elem_of_rglob).
      rewrite Hnone in Hp. by apply not_elem_of_nil in Hp. }
  exists s'. split; [|split; [done|split; [|done]]].
  - unfold main, bind at 1. rewrite Hrun.
    unfold bind at 1, detect_epubs, modify. unfold bind at 1, get.
    cbn [epub_list with_epub_list]. rewrite Hlist.
    unfold ret. f_equal. rewrite <- He at 1. by destruct s'.
  - rewrite Hcsv. apply Hother. unfold default_folders.
    rewrite !not_elem_of_cons. repeat split; try discriminate.
    apply not_elem_of_nil.
Qed.

Lemma main_nothing_found_witness :
  let f : gmap Path node := list_to_map [(["lib"], Dir);
                                         (["lib"; "notes.txt"], Samples.broken)] in
  forallb (fun p => negb (FS.is_file f p)) default_folders = true
  /\ FS.rglob f [] Pathlib.matches_epub = []
  /\ exists s',
      main Samples.only_author (Epub f ["y"]) = Return tt s'
      /\ post_init (Epub f ["y"]) = Return tt s'
      /\ fs s' !! csv_output s' = f !! csv_output s'
      /\ stdin s' = ["y"].
Proof.
  split; [vm_compute; reflexivity|].
  split; [vm_compute; reflexivity|].
  apply main_nothing_found; vm_compute; reflexivity.
Defined.
